(** * goemon-cli: the task model of [goemon/api.py]

    A shallow embedding of class [Task]: the dictionary [obj] holding the task
    attributes, the dictionary [changed] holding the dirty markers, the
    property setters, the fileset reconciliation of the [files] setter and the
    patch serialisation.  Python dictionaries are finite maps with string
    keys, Python exceptions are an explicit error result, and the attributes
    of [self] are threaded through a small state-and-error monad. *)

From Stdlib Require Import ZArith String Ascii List.
From Stdlib.Strings Require Import Byte.
From stdpp Require Import base option list strings gmap fin_maps.

Set Warnings "-register-all".
Local Open Scope string_scope.

(** ** Python values *)

(** The values [yaml.load(..., SafeLoader)] and the server's JSON produce:
    [None], booleans, integers, floats (kept as their bit pattern; no code
    below computes with them), strings, lists, tuples (the entries of
    [files_data]) and dictionaries with string keys. *)
Inductive value : Type :=
| VNone
| VBool (b : bool)
| VInt (n : Z)
| VFloat (bits : Z)
| VStr (s : string)
| VList (l : list value)
| VTuple (l : list value)
| VDict (d : gmap string value).

(** The exceptions the model can raise.  [ValueError] carries the fixed part
    of its message. *)
Inductive exn : Type :=
| ValueError (msg : string)
| TypeError
| AttributeError
| KeyError (key : string)
| IndexError
| OSError
| YAMLError.

(** Python's class hierarchy: [KeyError] and [IndexError] derive from
    [LookupError]. *)
Definition is_LookupError (e : exn) : bool :=
  match e with
  | KeyError _ | IndexError => true
  | _ => false
  end.

Definition is_ValueError (e : exn) : bool :=
  match e with
  | ValueError _ => true
  | _ => false
  end.

Inductive result (A : Type) : Type :=
| Ok (a : A)
| Raise (e : exn).
Arguments Ok {A} a.
Arguments Raise {A} e.

#[global] Instance result_ret : MRet result := @Ok.
#[global] Instance result_bind : MBind result := λ A B f m,
  match m with
  | Ok a => f a
  | Raise e => Raise e
  end.

(** [if c: raise e] *)
Definition raise_if (c : bool) (e : exn) : result unit :=
  if c then Raise e else Ok tt.

(** A [for] loop over a list whose body may raise; [s] holds the variables
    the body updates. *)
Fixpoint for_each {A S : Type} (body : S → A → result S) (l : list A) (s : S)
  : result S :=
  match l with
  | [] => Ok s
  | x :: l' => s' ← body s x; for_each body l' s'
  end.

(** A list comprehension [[x for x in l if p(x)]] whose condition may raise. *)
Fixpoint filter_r {A : Type} (p : A → result bool) (l : list A)
  : result (list A) :=
  match l with
  | [] => Ok []
  | x :: l' =>
      b ← p x;
      r ← filter_r p l';
      Ok (if b : bool then x :: r else r)
  end.

Module Py.

(** [a == b] for the comparisons the code performs: one operand is always a
    [str], and a [str] equals only an equal [str]. *)
Definition eq (a b : value) : bool :=
  match a, b with
  | VStr x, VStr y => bool_decide (x = y)
  | _, _ => false
  end.

(** [needle in hay] on two strings: substring search. *)
Fixpoint str_contains (needle hay : string) : bool :=
  String.prefix needle hay ||
  match hay with
  | EmptyString => false
  | String _ hay' => str_contains needle hay'
  end.

(** [k in v] for a [str] key [k]. *)
Definition contains (k : string) (v : value) : result bool :=
  match v with
  | VDict d => Ok (bool_decide (is_Some (d !! k)))
  | VList l | VTuple l => Ok (existsb (λ x, eq x (VStr k)) l)
  | VStr s => Ok (str_contains k s)
  | _ => Raise TypeError
  end.

(** [v[k]] for a [str] key [k]: only a dictionary accepts it. *)
Definition getitem (v : value) (k : string) : result value :=
  match v with
  | VDict d =>
      match d !! k with
      | Some x => Ok x
      | None => Raise (KeyError k)
      end
  | _ => Raise TypeError
  end.

(** [v.get(k, dflt)] *)
Definition get (v : value) (k : string) (dflt : value) : result value :=
  match v with
  | VDict d => Ok (default dflt (d !! k))
  | _ => Raise AttributeError
  end.

(** [a.update(b)] for a mapping [b]: the keys of [b] win.  (The code only
    passes a descriptor that [_validate_file] accepted, which is a
    dictionary; see [_validate_file_dict].) *)
Definition update (a b : value) : result value :=
  match a, b with
  | VDict da, VDict db => Ok (VDict (db ∪ da))
  | VDict _, _ => Raise TypeError
  | _, _ => Raise AttributeError
  end.

(** [iter(v)]: what a [for] loop over [v] visits.  A dictionary yields its
    keys, a string its characters.  (A Python dictionary yields its keys in
    insertion order, the map here in the order of the keys: the statements
    below are about lists, and none depends on the order in which the keys
    of a dictionary are visited.) *)
Definition iter (v : value) : result (list value) :=
  match v with
  | VList l | VTuple l => Ok l
  | VDict d => Ok (VStr <$> (map_to_list d).*1)
  | VStr s => Ok ((λ c, VStr (String c EmptyString)) <$> list_ascii_of_string s)
  | _ => Raise TypeError
  end.

Definition isinstance_str (v : value) : bool :=
  match v with VStr _ => true | _ => false end.

Definition isinstance_bool (v : value) : bool :=
  match v with VBool _ => true | _ => false end.

(** [bool] is a subclass of [int]. *)
Definition isinstance_int (v : value) : bool :=
  match v with VInt _ | VBool _ => true | _ => false end.

Definition isinstance_list (v : value) : bool :=
  match v with VList _ => true | _ => false end.

Definition is_None (v : value) : bool :=
  match v with VNone => true | _ => false end.

(** [posixpath.join(d, f)] *)
Definition os_path_join (d f : string) : string :=
  if String.prefix "/" f then f
  else if bool_decide (d = "") || String.prefix "/" (String.rev d)
       then d ++ f
       else d ++ "/" ++ f.

End Py.

(** ** Module constants *)

Definition PROPERTIES : list string :=
  ["meta"; "description"; "script"; "param"; "paramschema"].

Definition META_BOOLEAN_PROPERTIES : list string :=
  ["public"; "importable"; "distributable"].
Definition META_STRING_OR_NONE_PROPERTIES : list string :=
  ["creatorLogType"; "authorLogType"].
Definition META_STRING_OR_EMPTY_PROPERTIES : list string := ["title"].

(** ** Validation *)

Definition _validate_file (file : value) : result unit :=
  b ← Py.contains "name" file;
  raise_if (negb b) (ValueError "name is not defined");;
  value ← Py.getitem file "name";
  raise_if (negb (Py.isinstance_str value)) (ValueError "name is not str");;
  b ← Py.contains "type" file;
  raise_if (negb b) (ValueError "type is not defined");;
  value ← Py.getitem file "type";
  raise_if (negb (Py.isinstance_str value)) (ValueError "type is not str");;
  b ← Py.contains "importType" file;
  raise_if (negb b) (ValueError "importType is not defined");;
  value ← Py.getitem file "importType";
  raise_if (negb (Py.isinstance_str value)) (ValueError "importType is not str");;
  b ← Py.contains "preload" file;
  raise_if (negb b) (ValueError "preload is not defined");;
  value ← Py.getitem file "preload";
  raise_if (negb (Py.isinstance_bool value)) (ValueError "preload is not str");;
  b ← Py.contains "priority" file;
  raise_if (negb b) (ValueError "priority is not defined");;
  value ← Py.getitem file "priority";
  raise_if (negb (Py.isinstance_int value)) (ValueError "priority is not int").

Definition _validate_param_field (elem : value) : result unit :=
  b ← Py.contains "name" elem;
  raise_if (negb b) (ValueError "name is not defined");;
  elemname ← Py.getitem elem "name";
  raise_if (negb (Py.isinstance_str elemname)) (ValueError "name is not str");;
  b ← Py.contains "value" elem;
  raise_if (negb b) (ValueError "value is not defined");;
  elemvalue ← Py.getitem elem "value";
  raise_if (negb (Py.isinstance_str elemvalue)) (ValueError "value is not str").

Definition _validate_param (param : value) : result unit :=
  match param with
  | VNone => Ok tt
  | VList l => for_each (λ _ p, _validate_param_field p) l tt
  | _ => Raise (ValueError "param is not list or none")
  end.

Definition paramschema_types : list string :=
  ["string"; "integer"; "number"; "file"; "boolean"; "url"].

Definition _validate_paramschema_field (elem : value) : result unit :=
  let types := paramschema_types in
  b ← Py.contains "name" elem;
  raise_if (negb b) (ValueError "name is not defined");;
  elemname ← Py.getitem elem "name";
  raise_if (negb (Py.isinstance_str elemname)) (ValueError "name is not str");;
  b ← Py.contains "type" elem;
  raise_if (negb b) (ValueError "type is not defined");;
  elemtype ← Py.getitem elem "type";
  raise_if (negb (existsb (λ ty, Py.eq elemtype (VStr ty)) types))
    (ValueError "unexpected type").

Definition _validate_paramschema (paramschema : value) : result unit :=
  match paramschema with
  | VNone => Ok tt
  | VList l => for_each (λ _ p, _validate_paramschema_field p) l tt
  | _ => Raise (ValueError "paramschema is not list or none")
  end.

(** ** The task and its state monad *)

(** The attributes of a [Task] instance.  [changed] only ever receives the
    literal [True]; [dir_files] is the scratch directory of the downloaded
    files, if any. *)
Record Task : Type := mkTask {
  obj : gmap string value;
  changed : gmap string bool;
  dir_files : option string;
}.

(** A method of [Task]: it reads and writes [self] and returns or raises.
    When it raises, the second component is [self] as the exception left
    it. *)
Definition M (A : Type) : Type := Task → result A * Task.

#[global] Instance M_ret : MRet M := λ A a t, (Ok a, t).
#[global] Instance M_bind : MBind M := λ A B f m t,
  match m t with
  | (Ok a, t') => f a t'
  | (Raise e, t') => (Raise e, t')
  end.

(** A computation that does not touch [self]. *)
Definition lift {A : Type} (r : result A) : M A := λ t, (r, t).

(** [self.obj] *)
Definition self_obj : M value := λ t, (Ok (VDict (obj t)), t).

(** [self.obj[k] = v] *)
Definition obj_setitem (k : string) (v : value) : M unit := λ t,
  (Ok tt, mkTask (<[k := v]> (obj t)) (changed t) (dir_files t)).

(** [self.changed[k] = True] *)
Definition changed_setitem (k : string) : M unit := λ t,
  (Ok tt, mkTask (obj t) (<[k := true]> (changed t)) (dir_files t)).

(** [self.changed.get(k, False)] *)
Definition changed_get (k : string) : M bool := λ t,
  (Ok (default false (changed t !! k)), t).

(** [for x in l: body(x)] on [self] *)
Fixpoint for_each_M {A : Type} (body : A → M unit) (l : list A) : M unit :=
  match l with
  | [] => mret tt
  | x :: l' => body x;; for_each_M body l'
  end.

(** [Task(obj)]: [dir] is the scratch directory [_download_files] has
    created ([None] when the task has no file). *)
Definition Task_init (o : gmap string value) (dir : option string) : Task :=
  mkTask o ∅ dir.

(** A regular file as the setter reads it: its bytes, [os.path.getsize] and
    [int(os.path.getmtime(...) * 1000)]. *)
Record file_stat : Type := mkFile {
  f_bytes : list byte;
  f_size : Z;
  f_mtime_ms : Z;
}.

(** The file system: the files that can be opened, by path. *)
Definition filesystem : Type := string → option file_stat.

(** [open(path, 'rb')] *)
Definition fs_open (fs : filesystem) (path : string) : result file_stat :=
  match fs path with
  | Some f => Ok f
  | None => Raise OSError
  end.

(** [l[0]] *)
Definition first {A : Type} (l : list A) : result A :=
  match l with
  | x :: _ => Ok x
  | [] => Raise IndexError
  end.

(** ** Fileset entries *)

(** The attributes of a fileset entry, [e['data']['attributes']]. *)
Definition attributes (e : value) : result value :=
  d ← Py.getitem e "data"; Py.getitem d "attributes".

(** The tuple the loop appends to [newdata_files] for a new file. *)
Definition transfer (n hash path : string) : value :=
  VTuple [VStr n; VStr hash; VStr path].

(** The old entry [od] (with [od['data'] = dd] and
    [dd['attributes'] = a]) after [attributes.update(d)]. *)
Definition reused (od dd a d : gmap string value) : value :=
  VDict (<["data" := VDict (<["attributes" := VDict (d ∪ a)]> dd)]> od).

(** The attributes the setter computes for a new file, before the
    descriptor is laid over them. *)
Definition fresh_attributes (hash : string) (st : file_stat)
    : gmap string value :=
  {[ "hashSHA256" := VStr hash;
     "size" := VInt (f_size st);
     "lastModified" := VInt (f_mtime_ms st) ]}.

(** The entry built for a new file with descriptor [d]. *)
Definition fresh_entry (hash : string) (st : file_stat)
    (d : gmap string value) : value :=
  VDict {[ "type" := VStr "files";
           "data" := VDict {[ "attributes" := VDict (d ∪ fresh_attributes hash st) ]} ]}.

(** The task [t] after a [files] assignment that stored the entries [files]
    and the pending transfers [files_data]. *)
Definition replaced (t : Task) (files files_data : list value) : Task :=
  mkTask (<["files_data" := VList files_data]> (<["files" := VList files]> (obj t)))
         (<["files" := true]> (changed t)) (dir_files t).

(** The attribute [k] of the [i]-th entry of the fileset of [t]. *)
Definition fileset_attribute (t : Task) (i : nat) (k : string) : option value :=
  match obj t !! "files" with
  | Some (VList l) =>
      match l !! i with
      | Some (VDict od) =>
          match od !! "data" with
          | Some (VDict dd) =>
              match dd !! "attributes" with
              | Some (VDict a) => a !! k
              | _ => None
              end
          | _ => None
          end
      | _ => None
      end
  | _ => None
  end.

(** ** A sample session

    A concrete digest, a concrete decoder for a handful of YAML texts, one
    local file and one server-side entry, used to run the model. *)

Module Sample.

(** Stands in for the SHA-256 hex digest: the bytes themselves, as text. *)
Definition digest (b : list byte) : string := string_of_list_byte b.

Definition descriptor (name : string) (priority : Z) : gmap string value :=
  {[ "name" := VStr name; "type" := VStr "text"; "importType" := VStr "none";
     "preload" := VBool false; "priority" := VInt priority ]}.

Definition files_one : string :=
  "- {name: x.txt, type: text, importType: none, preload: false, priority: 1}".
Definition files_sized : string :=
  "- {name: x.txt, type: text, importType: none, preload: false, priority: 1, size: 0}".
Definition files_hashed : string :=
  "- {name: x.txt, type: text, importType: none, preload: false, priority: 1, hashSHA256: bogus}".
Definition files_twice : string :=
  "[{name: x.txt, type: text, importType: none, preload: false, priority: 1}, {name: x.txt, type: text, importType: none, preload: false, priority: 2}]".
Definition files_missing : string :=
  "- {name: y.txt, type: text, importType: none, preload: false, priority: 1}".
Definition meta_text : string := "{public: true, title: T}".
Definition schema_object : string := "- {name: p, type: object}".
Definition schema_string : string := "- {name: p, type: string}".

(** What [yaml.load] returns for the texts above; any other text is taken
    as malformed. *)
Definition yaml : list (string * value) :=
  [ (files_one, VList [VDict (descriptor "x.txt" 1)]);
    (files_sized, VList [VDict (<["size" := VInt 0]> (descriptor "x.txt" 1))]);
    (files_hashed,
     VList [VDict (<["hashSHA256" := VStr "bogus"]> (descriptor "x.txt" 1))]);
    (files_twice,
     VList [VDict (descriptor "x.txt" 1); VDict (descriptor "x.txt" 2)]);
    (files_missing, VList [VDict (descriptor "y.txt" 1)]);
    (meta_text, VDict {[ "public" := VBool true; "title" := VStr "T" ]});
    (schema_object,
     VList [VDict {[ "name" := VStr "p"; "type" := VStr "object" ]}]);
    (schema_string,
     VList [VDict {[ "name" := VStr "p"; "type" := VStr "string" ]}]) ].

Definition load (text : string) : result value :=
  match list_find (λ p, p.1 = text) yaml with
  | Some (_, (_, v)) => Ok v
  | None => Raise YAMLError
  end.

Definition dump (v : value) : string := "".

(** The file [files/x.txt]: five bytes. *)
Definition x_txt : file_stat :=
  mkFile (list_byte_of_string "hello") 5 1700000000000.

Definition fs : filesystem := λ path,
  if bool_decide (path = "files/x.txt") then Some x_txt else None.

Definition files_path : list (string * string) := [("files", "x.txt")].

(** A server-side entry for [x.txt] with the bytes of [files/x.txt]. *)
Definition old_attributes : gmap string value :=
  <["hashSHA256" := VStr "hello"]>
    (<["size" := VInt 5]> (<["lastModified" := VInt 1600000000000]>
       (descriptor "x.txt" 0))).

Definition old_data : gmap string value :=
  {[ "attributes" := VDict old_attributes ]}.

Definition old_entry : gmap string value :=
  {[ "type" := VStr "files";
     "links" := VDict {[ "download" := VStr "https://goemon.cloud/d/1";
                         "upload" := VStr "https://goemon.cloud/u/1" ]};
     "data" := VDict old_data ]}.

(** A task loaded with that entry, and a task loaded without files. *)
Definition loaded_task : Task :=
  Task_init {[ "description" := VStr "old"; "files" := VList [VDict old_entry] ]}
            (Some "/tmp/goemon").

Definition empty_task : Task := Task_init ∅ None.

(** [loaded_task] after [files = (files_one, files_path)]: the file has the
    bytes of the old entry, which is reused. *)
Definition reconciled_task : Task :=
  replaced loaded_task
    [reused old_entry old_data old_attributes (descriptor "x.txt" 1)] [].

(** [empty_task] after the same assignment: the file is new. *)
Definition uploaded_task : Task :=
  replaced empty_task
    [fresh_entry "hello" x_txt (descriptor "x.txt" 1)]
    [transfer "x.txt" "hello" "files/x.txt"].

(** The two tasks after [files = (files_sized, files_path)], whose
    descriptor also carries [size: 0]. *)
Definition sized_loaded_task : Task :=
  replaced loaded_task
    [reused old_entry old_data old_attributes
       (<["size" := VInt 0]> (descriptor "x.txt" 1))] [].

Definition sized_empty_task : Task :=
  replaced empty_task
    [fresh_entry "hello" x_txt (<["size" := VInt 0]> (descriptor "x.txt" 1))]
    [transfer "x.txt" "hello" "files/x.txt"].

(** [empty_task] after [files = (files_hashed, files_path)], whose
    descriptor also carries [hashSHA256: bogus], and that task after the
    same assignment once more. *)
Definition hashed_task : Task :=
  replaced empty_task
    [fresh_entry "hello" x_txt
       (<["hashSHA256" := VStr "bogus"]> (descriptor "x.txt" 1))]
    [transfer "x.txt" "hello" "files/x.txt"].

Definition hashed_again_task : Task :=
  replaced hashed_task
    [fresh_entry "hello" x_txt
       (<["hashSHA256" := VStr "bogus"]> (descriptor "x.txt" 1))]
    [transfer "x.txt" "hello" "files/x.txt"].

(** [loaded_task] after [files = (files_twice, files_path)], which names
    [x.txt] twice. *)
Definition twice_task : Task :=
  replaced loaded_task
    [reused old_entry old_data old_attributes (descriptor "x.txt" 1);
     reused old_entry old_data old_attributes (descriptor "x.txt" 2)] [].

End Sample.

(** The surroundings of the sample session: a YAML codec that also knows the
    empty document, the default metadata and one parameter list; the
    response of the server to a patch; the listing directory of the command
    line. *)

Module World.

Definition meta_value : value :=
  VDict {[ "public" := VBool false; "importable" := VBool false;
           "distributable" := VBool false; "creatorLogType" := VStr "none";
           "authorLogType" := VStr "none"; "title" := VStr "" ]}.

Definition meta_text : string :=
  "{authorLogType: none, creatorLogType: none, distributable: false, importable: false, public: false, title: ''}".

Definition param_value : value :=
  VList [VDict {[ "name" := VStr "p"; "value" := VStr "v" ]}].

Definition param_text : string := "- {name: p, value: v}".

(** Two parameter lists the validator does not accept: an element without
    [value], and an element that is no mapping. *)
Definition param_missing : string := "- {name: p}".

Definition param_missing_value : value :=
  VList [VDict {[ "name" := VStr "p" ]}].

Definition param_scalar : string := "[5]".

Definition param_scalar_value : value := VList [VInt 5].

(** [yaml.load]: the empty document loads as [None]. *)
Definition load (text : string) : result value :=
  if bool_decide (text = "") then Ok VNone
  else if bool_decide (text = meta_text) then Ok meta_value
  else if bool_decide (text = param_text) then Ok param_value
  else if bool_decide (text = param_missing) then Ok param_missing_value
  else if bool_decide (text = param_scalar) then Ok param_scalar_value
  else Sample.load text.

(** Server-side entries that share only the name or only the bytes with
    [files/x.txt]: [x.txt] with other bytes, and [z.txt] with the same
    bytes; and a second entry for [x.txt] with the bytes of the file. *)
Definition stale_entry : gmap string value :=
  {[ "type" := VStr "files";
     "links" := VDict {[ "download" := VStr "https://goemon.cloud/d/0";
                         "upload" := VStr "https://goemon.cloud/u/0" ]};
     "data" := VDict {[ "attributes" :=
       VDict (<["hashSHA256" := VStr "world"]> Sample.old_attributes) ]} ]}.

Definition other_entry : gmap string value :=
  {[ "type" := VStr "files";
     "links" := VDict {[ "download" := VStr "https://goemon.cloud/d/3";
                         "upload" := VStr "https://goemon.cloud/u/3" ]};
     "data" := VDict {[ "attributes" :=
       VDict (<["name" := VStr "z.txt"]> Sample.old_attributes) ]} ]}.

Definition twin_entry : gmap string value :=
  {[ "type" := VStr "files";
     "links" := VDict {[ "download" := VStr "https://goemon.cloud/d/2";
                         "upload" := VStr "https://goemon.cloud/u/2" ]};
     "data" := VDict Sample.old_data ]}.

(** A task whose fileset holds the four entries, the one that has both the
    name and the bytes of [files/x.txt] in third place, and that task after
    [files = (files_one, files_path)]. *)
Definition crowded_task : Task :=
  Task_init {[ "files" := VList [VDict stale_entry; VDict other_entry;
                                 VDict Sample.old_entry; VDict twin_entry] ]}
            (Some "/tmp/goemon").

Definition crowded_reconciled_task : Task :=
  replaced crowded_task
    [reused Sample.old_entry Sample.old_data Sample.old_attributes
       (Sample.descriptor "x.txt" 1)] [].

(** A task whose fileset holds only the two entries that share one of the
    two with [files/x.txt], and that task after the same assignment. *)
Definition unmatched_task : Task :=
  Task_init {[ "files" := VList [VDict stale_entry; VDict other_entry] ]}
            (Some "/tmp/goemon").

Definition unmatched_uploaded_task : Task :=
  replaced unmatched_task
    [fresh_entry "hello" Sample.x_txt (Sample.descriptor "x.txt" 1)]
    [transfer "x.txt" "hello" "files/x.txt"].

(** The response to a patch of [crowded_task]: its four entries. *)
Definition crowded_respjson : value :=
  VDict {[ "data" := VDict {[ "attributes" :=
    VDict {[ "files" := VList [VDict stale_entry; VDict other_entry;
                               VDict Sample.old_entry; VDict twin_entry] ]} ]} ]}.

(** [yaml.dump] on the two values above. *)
Definition dump (v : value) : string :=
  match v with
  | VDict _ => meta_text
  | _ => param_text
  end.

(** A task whose parameters are [param_value]. *)
Definition param_task : Task := Task_init {[ "param" := param_value ]} None.

(** The response to a patch: the fileset holds the entry of [x.txt]. *)
Definition respjson : value :=
  VDict {[ "data" := VDict {[ "attributes" :=
    VDict {[ "files" := VList [VDict Sample.old_entry] ]} ]} ]}.

(** A [requests.put] and a [shutil.rmtree] that succeed. *)
Definition http_put (url : value) (content : list byte) : result unit := Ok tt.

Definition rmtree (d : string) : result unit := Ok tt.

(** The directory [./files]: its listing names [y.txt], which is not
    there. *)
Definition read_text (path : string) : result string :=
  if bool_decide (path = "./files/.files.yml") then Ok Sample.files_missing
  else Raise OSError.

Definition exists_ (path : string) : bool :=
  bool_decide (path = "./files/x.txt").

Definition report (t : Task) (files_yaml : string)
    (files_path : list (string * string)) : result unit := Ok tt.

End World.

(** ** Properties of [Task] *)

Section Task.

(** The collaborators of the model: [hashlib.sha256(b).hexdigest()],
    [yaml.load(s, yaml.SafeLoader)] and [yaml.dump(v, allow_unicode=True)]. *)
Variable sha256_hexdigest : list byte → string.
Variable yaml_load : string → result value.
Variable yaml_dump : value → string.

Set Default Proof Using "Type".

(** [for key in keys: obj[key] = self.obj.get(key, dflt)] of the [meta]
    getter, on the local dictionary [o]. *)
Definition meta_collect (keys : list string) (dflt : value)
    (o : gmap string value) : M (gmap string value) :=
  self ← self_obj;
  lift (for_each (λ o key, v ← Py.get self key dflt; Ok (<[key := v]> o)) keys o).

Definition meta : M string :=
  let o := ∅ in
  o ← meta_collect META_BOOLEAN_PROPERTIES (VBool false) o;
  o ← meta_collect META_STRING_OR_NONE_PROPERTIES (VStr "none") o;
  o ← meta_collect META_STRING_OR_EMPTY_PROPERTIES (VStr "") o;
  mret (yaml_dump (VDict o)).

(** [for key in keys: self.obj[key] = obj.get(key, dflt);
    self.changed[key] = True] of the [meta] setter. *)
Definition meta_assign (keys : list string) (dflt : value) (o : value)
    : M unit :=
  for_each_M (λ key,
    v ← lift (Py.get o key dflt);
    obj_setitem key v;;
    changed_setitem key) keys.

Definition meta_setter (value : string) : M unit :=
  o ← lift (yaml_load value);
  meta_assign META_BOOLEAN_PROPERTIES (VBool false) o;;
  meta_assign META_STRING_OR_NONE_PROPERTIES (VStr "none") o;;
  meta_assign META_STRING_OR_EMPTY_PROPERTIES (VStr "") o.

(** [description] and [script] hold the text as it is. *)
Definition description : M value :=
  self ← self_obj; lift (Py.get self "description" (VStr "")).

Definition description_setter (value : string) : M unit :=
  obj_setitem "description" (VStr value);;
  changed_setitem "description".

Definition script : M value :=
  self ← self_obj; lift (Py.get self "script" (VStr "")).

Definition script_setter (value : string) : M unit :=
  obj_setitem "script" (VStr value);;
  changed_setitem "script".

Definition param : M string :=
  self ← self_obj;
  v ← lift (Py.get self "param" VNone);
  if Py.is_None v then mret ""
  else p ← lift (Py.getitem self "param"); mret (yaml_dump p).

Definition param_setter (value : string) : M unit :=
  param ← lift (yaml_load value);
  lift (_validate_param param);;
  obj_setitem "param" param;;
  changed_setitem "param".

Definition paramschema : M string :=
  self ← self_obj;
  v ← lift (Py.get self "paramschema" VNone);
  if Py.is_None v then mret ""
  else p ← lift (Py.getitem self "paramschema"); mret (yaml_dump p).

Definition paramschema_setter (value : string) : M unit :=
  paramschema ← lift (yaml_load value);
  lift (_validate_paramschema paramschema);;
  obj_setitem "paramschema" paramschema;;
  changed_setitem "paramschema".

(** ** The [files] setter: fileset reconciliation *)

(** The condition of the comprehension that builds [oldfiles_matched]:
    [f['data']['attributes']['name'] == file['name'] and
     f['data']['attributes']['hashSHA256'] == hash]. *)
Definition old_matches (name : value) (hash : string) (f : value)
    : result bool :=
  d ← Py.getitem f "data";
  a ← Py.getitem d "attributes";
  n ← Py.getitem a "name";
  if Py.eq n name then
    d ← Py.getitem f "data";
    a ← Py.getitem d "attributes";
    h ← Py.getitem a "hashSHA256";
    Ok (Py.eq h (VStr hash))
  else Ok false.

(** [newfile['data']['attributes'].update(file)] on the deep copy
    [newfile]; the result is the copy after the update. *)
Definition attributes_update (newfile file : value) : result value :=
  d ← Py.getitem newfile "data";
  a ← Py.getitem d "attributes";
  a' ← Py.update a file;
  match newfile, d with
  | VDict nf, VDict dd =>
      Ok (VDict (<["data" := VDict (<["attributes" := a']> dd)]> nf))
  | _, _ => Raise TypeError
  end.

(** The paths of the comprehension
    [[os.path.join(d, f) for d, f in files_path if f == file['name']]]. *)
Definition located (files_path : list (string * string)) (name : value)
    : list string :=
  (λ df, Py.os_path_join df.1 df.2) <$>
    filter (λ df, Py.eq (VStr df.2) name = true) files_path.

(** The entry the setter builds for a file that matches no old entry. *)
Definition minted (hash : string) (st : file_stat) (file : value)
    : result value :=
  let attr : gmap string value :=
    {[ "hashSHA256" := VStr hash;
       "size" := VInt (f_size st);
       "lastModified" := VInt (f_mtime_ms st) ]} in
  attr ← Py.update (VDict attr) file;
  Ok (VDict {[ "type" := VStr "files";
               "data" := VDict {[ "attributes" := attr ]} ]}).

(** One round of the loop over the descriptors; the state is
    [(newfiles, newdata_files)]. *)
Definition files_loop (fs : filesystem) (oldfiles : value)
    (files_path : list (string * string))
    (acc : list value * list value) (file : value)
    : result (list value * list value) :=
  let '(newfiles, newdata_files) := acc in
  _validate_file file;;
  name ← Py.getitem file "name";
  filepath ← first (located files_path name);
  f ← fs_open fs filepath;
  let hash := sha256_hexdigest (f_bytes f) in
  olds ← Py.iter oldfiles;
  oldfiles_matched ← filter_r (old_matches name hash) olds;
  if bool_decide (0 < length oldfiles_matched) then
    newfile ← first oldfiles_matched;
    newfile ← attributes_update newfile file;
    Ok ((newfiles ++ [newfile])%list, newdata_files)
  else
    newfile ← minted hash f file;
    Ok ((newfiles ++ [newfile])%list,
        (newdata_files ++ [VTuple [name; VStr hash; VStr filepath]])%list).

Definition files_setter (fs : filesystem)
    (value : string * list (string * string)) : M unit :=
  self ← self_obj;
  oldfiles ← lift (Py.get self "files" (VList []));
  let '(files_yaml, files_path) := value in
  loaded ← lift (yaml_load files_yaml);
  descriptors ← lift (Py.iter loaded);
  '(newfiles, newdata_files) ←
    lift (for_each (files_loop fs oldfiles files_path) descriptors ([], []));
  obj_setitem "files" (VList newfiles);;
  obj_setitem "files_data" (VList newdata_files);;
  changed_setitem "files".

(** ** The patch and the pending uploads *)

Definition all_properties : list string :=
  (PROPERTIES ++ ["files"] ++ META_BOOLEAN_PROPERTIES
    ++ META_STRING_OR_EMPTY_PROPERTIES ++ META_STRING_OR_NONE_PROPERTIES)%list.

(** The body of the loop of [serialize_as_task]: [data] is the dictionary
    under construction. *)
Definition serialize_step (t : Task) (data : gmap string value) (prop : string)
    : result (gmap string value) :=
  if bool_decide (prop = "meta") then Ok data
  else if negb (default false (changed t !! prop)) then Ok data
  else v ← Py.getitem (VDict (obj t)) prop; Ok (<[prop := v]> data).

Definition serialize_as_task : M (gmap string value) := λ t,
  (for_each (serialize_step t) all_properties ∅, t).

Definition get_data_files : M value := λ t,
  if negb (bool_decide (is_Some (obj t !! "files_data"))) then (Ok (VList []), t)
  else (Py.getitem (VDict (obj t)) "files_data", t).

(** ** Sessions *)

(** The calls that change a task: the property assignments of
    [process_export] and [process_files_export]. *)
Inductive call : Type :=
| SetMeta (value : string)
| SetDescription (value : string)
| SetScript (value : string)
| SetParam (value : string)
| SetParamschema (value : string)
| SetFiles (fs : filesystem) (value : string * list (string * string)).

Definition run_call (c : call) : M unit :=
  match c with
  | SetMeta v => meta_setter v
  | SetDescription v => description_setter v
  | SetScript v => script_setter v
  | SetParam v => param_setter v
  | SetParamschema v => paramschema_setter v
  | SetFiles fs v => files_setter fs v
  end.

(** The task after a call, whether the call returned or raised. *)
Definition after (c : call) (t : Task) : Task := (run_call c t).2.

(** The states a task goes through: a task as [Task(obj)] creates it,
    followed by any calls. *)
Inductive reachable : Task → Prop :=
| reachable_init o dir : reachable (Task_init o dir)
| reachable_call c t : reachable t → reachable (after c t).

(** The metadata sub-keys with their defaults, in the order the [meta]
    getter and setter visit them. *)
Definition meta_defaults : list (string * value) :=
  (((λ k, (k, VBool false)) <$> META_BOOLEAN_PROPERTIES)
   ++ ((λ k, (k, VStr "none")) <$> META_STRING_OR_NONE_PROPERTIES)
   ++ ((λ k, (k, VStr "")) <$> META_STRING_OR_EMPTY_PROPERTIES))%list.

(** [o.get(k, dflt)] for every sub-key [k], stored into [into]. *)
Definition meta_store (o into : gmap string value) : gmap string value :=
  foldl (λ m kd, <[kd.1 := default kd.2 (o !! kd.1)]> m) into meta_defaults.

Definition meta_mark (c : gmap string bool) : gmap string bool :=
  foldl (λ m kd, <[kd.1 := true]> m) c meta_defaults.

(** [self.changed.get(k, False)]: whether field [k] is dirty. *)
Definition dirty (t : Task) (k : string) : bool :=
  default false (changed t !! k).

(** ** The listing of the fileset *)

(** A list comprehension [[f(x) for x in l]] whose body may raise. *)
Fixpoint map_r {A B : Type} (f : A → result B) (l : list A) : result (list B) :=
  match l with
  | [] => Ok []
  | x :: l' => y ← f x; r ← map_r f l'; Ok (y :: r)
  end.

(** The keys [_get_file_attr] copies, in the order it visits them. *)
Definition file_attr_keys : list string :=
  ["importType"; "name"; "preload"; "priority"; "type"].

Definition _get_file_attr (file : value) : result value :=
  d ← Py.getitem file "data";
  attr ← Py.getitem d "attributes";
  r ← for_each (λ r key, v ← Py.getitem attr key; Ok (<[key := v]> r))
        file_attr_keys ∅;
  Ok (VDict r).

(** [self.dir_files] *)
Definition self_dir_files : M value := λ t,
  (Ok (match dir_files t with Some d => VStr d | None => VNone end), t).

(** The [files] getter: the dumped listing and, for every entry, the pair of
    the scratch directory and the entry's name. *)
Definition files : M (string * list (value * value)) :=
  self ← self_obj;
  v ← lift (Py.get self "files" VNone);
  files_yaml ←
    (if negb (Py.is_None v) then
       fl ← lift (Py.getitem self "files");
       l ← lift (Py.iter fl);
       attrs ← lift (map_r _get_file_attr l);
       mret (yaml_dump (VList attrs))
     else mret "");
  fl ← lift (Py.get self "files" (VList []));
  l ← lift (Py.iter fl);
  dir ← self_dir_files;
  files_path ←
    lift (map_r (λ file,
            d ← Py.getitem file "data";
            a ← Py.getitem d "attributes";
            n ← Py.getitem a "name";
            Ok (dir, n)) l);
  mret (files_yaml, files_path).

(** ** Sessions and the scratch directory *)

(** The task after the calls [cs], made in that order. *)
Definition session (cs : list call) (t : Task) : Task :=
  foldl (λ t c, after c t) t cs.

(** [destroy]: [rmtree] stands for [shutil.rmtree], which returns or raises;
    the list holds the directories it has been called on. *)
Definition destroy (rmtree : string → result unit)
    (tw : Task * list string) : result unit * (Task * list string) :=
  let '(t, removed) := tw in
  match dir_files t with
  | None => (Ok tt, (t, removed))
  | Some d =>
      if bool_decide (d = "") then (Ok tt, (t, removed))
      else
        match rmtree d with
        | Ok _ =>
            (Ok tt, (mkTask (obj t) (changed t) None, (removed ++ [d])%list))
        | Raise e => (Raise e, (t, (removed ++ [d])%list))
        end
  end.

(** ** The uploads that follow a patch *)

(** The condition of the comprehension of [_patch]:
    [file['data']['attributes']['hashSHA256'] == hash and
     file['data']['attributes']['name'] == filename]. *)
Definition acknowledges (hash filename : value) (file : value) : result bool :=
  d ← Py.getitem file "data";
  a ← Py.getitem d "attributes";
  h ← Py.getitem a "hashSHA256";
  if Py.eq h hash then
    d ← Py.getitem file "data";
    a ← Py.getitem d "attributes";
    n ← Py.getitem a "name";
    Ok (Py.eq n filename)
  else Ok false.

(** [filename, hash, filepath = item] *)
Definition unpack3 (item : value) : result (value * value * value) :=
  l ← Py.iter item;
  match l with
  | [a; b; c] => Ok (a, b, c)
  | _ :: _ :: _ :: _ :: _ => Raise (ValueError "too many values to unpack")
  | _ => Raise (ValueError "not enough values to unpack")
  end.

(** [open(filepath, 'rb')] for the path of a pending transfer.  (The code
    only passes the paths the [files] setter stored, which are [str].) *)
Definition open_value (fs : filesystem) (filepath : value) : result file_stat :=
  match filepath with
  | VStr path => fs_open fs path
  | _ => Raise TypeError
  end.

(** What one round of the loop of [_patch] does before its request: it
    returns the upload link and the bytes to send. *)
Definition upload_prepare (fs : filesystem) (respjson item : value)
    : result (value * list byte) :=
  '(filename, hash, filepath) ← unpack3 item;
  d ← Py.getitem respjson "data";
  a ← Py.getitem d "attributes";
  fl ← Py.getitem a "files";
  l ← Py.iter fl;
  files ← filter_r (acknowledges hash filename) l;
  raise_if (bool_decide (length files = 0)) OSError;;
  f ← open_value fs filepath;
  f0 ← first files;
  links ← Py.getitem f0 "links";
  url ← Py.getitem links "upload";
  Ok (url, f_bytes f).

(** The loop of [_patch] over the pending transfers.  [http_put] stands for
    [requests.put] followed by [raise_for_status]; [puts] holds the requests
    issued so far, each with its link and its bytes. *)
Fixpoint upload_loop (fs : filesystem)
    (http_put : value → list byte → result unit) (respjson : value)
    (items : list value) (puts : list (value * list byte))
    : result unit * list (value * list byte) :=
  match items with
  | [] => (Ok tt, puts)
  | item :: rest =>
      match upload_prepare fs respjson item with
      | Raise e => (Raise e, puts)
      | Ok (url, content) =>
          match http_put url content with
          | Ok _ =>
              upload_loop fs http_put respjson rest (puts ++ [(url, content)])%list
          | Raise e => (Raise e, (puts ++ [(url, content)])%list)
          end
      end
  end.

Definition _patch_uploads (fs : filesystem)
    (http_put : value → list byte → result unit) (respjson data_files : value)
    : result unit * list (value * list byte) :=
  match Py.iter data_files with
  | Ok items => upload_loop fs http_put respjson items []
  | Raise e => (Raise e, [])
  end.

(** The keys of [obj] a call assigns when it returns.  The keys of [changed]
    it marks are among them. *)
Definition assigned (c : call) : list string :=
  match c with
  | SetMeta _ => meta_defaults.*1
  | SetDescription _ => ["description"]
  | SetScript _ => ["script"]
  | SetParam _ => ["param"]
  | SetParamschema _ => ["paramschema"]
  | SetFiles _ _ => ["files"; "files_data"]
  end.

(** ** The export of the files from the command line ([cli.py]) *)

(** The arguments [process_files_export] reads. *)
Record Args : Type := mkArgs {
  args_files : option string;
  args_all : bool;
  args_base_dir : string;
  args_dry_run : bool;
}.

(** [DEFAULT_FILENAMES['files']] *)
Definition DEFAULT_FILES : string := "files/".

(** The body of the loop of [process_files_export] that collects
    [files_path]: [exists] stands for [os.path.exists]. *)
Definition collect_path (exists_ : string → bool) (src_dir : string)
    (files_path : list (string * string)) (file : value)
    : result (list (string * string)) :=
  filename ← Py.getitem file "name";
  match filename with
  | VStr f =>
      raise_if (negb (exists_ (Py.os_path_join src_dir f)))
        (ValueError "File not found");;
      Ok (files_path ++ [(src_dir, f)])%list
  | _ => Raise TypeError
  end.

(** [process_files_export(args, task)].  [read_text] stands for opening and
    reading a text file, [report] for the block that prints the differences
    of a dry run. *)
Definition process_files_export (read_text : string → result string)
    (exists_ : string → bool)
    (report : Task → string → list (string * string) → result unit)
    (fs : filesystem) (args : Args) : M unit :=
  let src_dir :=
    match args_files args with
    | Some f => Some (Py.os_path_join (args_base_dir args) f)
    | None =>
        if args_all args
        then Some (Py.os_path_join (args_base_dir args) DEFAULT_FILES)
        else None
    end in
  match src_dir with
  | None => mret tt
  | Some src_dir =>
      files_yaml ← lift (read_text (Py.os_path_join src_dir ".files.yml"));
      loaded ← lift (yaml_load files_yaml);
      l ← lift (Py.iter loaded);
      files_path ← lift (for_each (collect_path exists_ src_dir) l []);
      (if args_dry_run args
       then (λ t, (report t files_yaml files_path, t)) : M unit
       else mret tt);;
      files_setter fs (files_yaml, files_path)
  end.

(** A result that is not the exception [IndexError]. *)
Definition no_IndexError {A : Type} (r : result A) : Prop := r ≠ Raise IndexError.

(** ** Predicates of the statements *)

(** Every dirty marker is [True], belongs to a property the patch visits, and
    has a value in [obj]. *)
Definition task_inv (t : Task) : Prop :=
  ∀ k b, changed t !! k = Some b →
    b = true ∧ k ∈ all_properties ∧ k ≠ "meta" ∧ is_Some (obj t !! k).


(** What the loop finds for a descriptor before it looks at the old
    entries: the descriptor is a dictionary [d] that [_validate_file]
    accepts, its name is the string [n], [path] is the first location listed
    for [n], and [st] is the file there. *)
Definition resolves (fs : filesystem) (files_path : list (string * string))
    (file : value) (d : gmap string value) (n path : string) (st : file_stat)
    : Prop :=
  file = VDict d ∧ _validate_file file = Ok tt ∧ d !! "name" = Some (VStr n) ∧
  first (located files_path (VStr n)) = Ok path ∧ fs path = Some st.

(** The entry [e] has the name [n] and the digest [h]: its attributes hold
    [n] under ['name'] and [h] under ['hashSHA256']. *)
Definition holds (e : value) (n h : string) : Prop :=
  ∃ a, attributes e = Ok (VDict a) ∧ a !! "name" = Some (VStr n) ∧
       a !! "hashSHA256" = Some (VStr h).




(** An entry every comparison of the loop can read: it has attributes with a
    [name] and a [hashSHA256]. *)
Definition comparable (e : value) : Prop :=
  ∃ a, attributes e = Ok (VDict a) ∧ is_Some (a !! "name") ∧
       is_Some (a !! "hashSHA256").

(** The entry [e] a round builds for the descriptor [file]: its attributes
    hold the descriptor's name and a ['hashSHA256'], which is the digest of
    the descriptor's file unless the descriptor has a key of that name. *)
Definition entry_for (fs : filesystem) (files_path : list (string * string))
    (file e : value) : Prop :=
  ∃ d n path st a h,
    resolves fs files_path file d n path st ∧
    attributes e = Ok (VDict a) ∧ a !! "name" = Some (VStr n) ∧
    a !! "hashSHA256" = Some h ∧
    (d !! "hashSHA256" = None → h = VStr (sha256_hexdigest (f_bytes st))).

(** The entry [e] is built over the descriptor [file]: [file] is a
    dictionary [d] that [_validate_file] accepts, and the attributes of [e]
    are [d] laid over some other attributes. *)
Definition entry_over (file e : value) : Prop :=
  ∃ d x, file = VDict d ∧ _validate_file file = Ok tt ∧
         attributes e = Ok (VDict (d ∪ x)).


(** [respjson['data']['attributes']['files']], as the loop of [_patch]
    visits it. *)
Definition response_files (respjson : value) : result (list value) :=
  d ← Py.getitem respjson "data";
  a ← Py.getitem d "attributes";
  fl ← Py.getitem a "files";
  Py.iter fl.

(** [files[0]['links']['upload']] *)
Definition upload_link (e : value) : result value :=
  links ← Py.getitem e "links"; Py.getitem links "upload".

(** The response acknowledges the transfer of the file named [n] with the
    digest [h]: the first of its entries that holds [h] and [n] has the
    upload link [url], and the entries can all be compared. *)
Definition acknowledged (respjson : value) (n h : string) (url : value) : Prop :=
  ∃ pre e post,
    response_files respjson = Ok (pre ++ e :: post)%list ∧
    Forall (λ f, acknowledges (VStr h) (VStr n) f = Ok false) pre ∧
    acknowledges (VStr h) (VStr n) e = Ok true ∧
    Forall (λ f, ∃ b, acknowledges (VStr h) (VStr n) f = Ok b) post ∧
    upload_link e = Ok url.

(** No entry of the response holds both [h] and [n]. *)
Definition unacknowledged (respjson : value) (n h : string) : Prop :=
  ∃ rfiles,
    response_files respjson = Ok rfiles ∧
    Forall (λ f, acknowledges (VStr h) (VStr n) f = Ok false) rfiles.

(** The request [put] is what the loop of [_patch] issues for the pending
    transfer [item], and it succeeds: the link is the one the response gives
    for the transfer, the bytes are those of the local file. *)
Definition uploaded (fs : filesystem)
    (http_put : value → list byte → result unit) (respjson : value)
    (item : value) (put : value * list byte) : Prop :=
  ∃ n h path st,
    item = transfer n h path ∧ acknowledged respjson n h put.1 ∧
    fs path = Some st ∧ put.2 = f_bytes st ∧ http_put put.1 put.2 = Ok tt.

(** The request [put] of the loop of [_patch] for the pending transfer
    [item], when the response lists the entries [rfiles]: [item] is the
    tuple [(n, h, path)], [e] is the first entry of [rfiles] that has the
    name [n] and the digest [h], [put] goes to the upload link of [e] with
    the bytes of the file at [path], and [http_put] accepts it. *)
Definition sent (fs : filesystem) (http_put : value → list byte → result unit)
    (rfiles : list value) (item : value) (put : value * list byte) : Prop :=
  ∃ n h path st pre e post,
    item = transfer n h path ∧
    rfiles = (pre ++ e :: post)%list ∧
    Forall (λ f, ¬ holds f n h) pre ∧ holds e n h ∧
    upload_link e = Ok put.1 ∧
    fs path = Some st ∧ put.2 = f_bytes st ∧
    http_put put.1 put.2 = Ok tt.

(** The pending transfer [tr] is backed by the entry [e] of the new fileset
    and by a local file: [e] holds the name and the digest of the transfer,
    which is the digest of the file at the transfer's path. *)
Definition backed (fs : filesystem) (e tr : value) : Prop :=
  ∃ n path st a,
    tr = transfer n (sha256_hexdigest (f_bytes st)) path ∧ fs path = Some st ∧
    attributes e = Ok (VDict a) ∧ a !! "name" = Some (VStr n) ∧
    a !! "hashSHA256" = Some (VStr (sha256_hexdigest (f_bytes st))) ∧
    acknowledges (VStr (sha256_hexdigest (f_bytes st))) (VStr n) e = Ok true.

(** ** What each call does to the task *)

(** Membership in a list of string literals, by evaluation. *)
Ltac in_list := apply (bool_decide_unpack _); vm_compute; exact I.

Ltac run_M :=
  unfold mbind, mret, M_bind, M_ret, lift, self_obj, obj_setitem,
    changed_setitem, changed_get; simpl.

Lemma description_setter_run value t :
  description_setter value t =
    (Ok tt, mkTask (<["description" := VStr value]> (obj t))
                   (<["description" := true]> (changed t)) (dir_files t)).
Proof. reflexivity. Qed.

Lemma script_setter_run value t :
  script_setter value t =
    (Ok tt, mkTask (<["script" := VStr value]> (obj t))
                   (<["script" := true]> (changed t)) (dir_files t)).
Proof. reflexivity. Qed.

Lemma param_setter_run value t :
  param_setter value t =
    match yaml_load value with
    | Raise e => (Raise e, t)
    | Ok p =>
        match _validate_param p with
        | Raise e => (Raise e, t)
        | Ok _ => (Ok tt, mkTask (<["param" := p]> (obj t))
                                 (<["param" := true]> (changed t)) (dir_files t))
        end
    end.
Proof.
  unfold param_setter. run_M.
  destruct (yaml_load value) as [p|e]; [|reflexivity].
  destruct (_validate_param p); reflexivity.
Qed.

Lemma paramschema_setter_run value t :
  paramschema_setter value t =
    match yaml_load value with
    | Raise e => (Raise e, t)
    | Ok p =>
        match _validate_paramschema p with
        | Raise e => (Raise e, t)
        | Ok _ => (Ok tt, mkTask (<["paramschema" := p]> (obj t))
                                 (<["paramschema" := true]> (changed t))
                                 (dir_files t))
        end
    end.
Proof.
  unfold paramschema_setter. run_M.
  destruct (yaml_load value) as [p|e]; [|reflexivity].
  destruct (_validate_paramschema p); reflexivity.
Qed.

Lemma meta_setter_run value t :
  meta_setter value t =
    match yaml_load value with
    | Raise e => (Raise e, t)
    | Ok (VDict o) =>
        (Ok tt, mkTask (meta_store o (obj t)) (meta_mark (changed t)) (dir_files t))
    | Ok _ => (Raise AttributeError, t)
    end.
Proof.
  unfold meta_setter. run_M.
  destruct (yaml_load value) as [o|e]; [|reflexivity].
  destruct o; reflexivity.
Qed.

Lemma files_setter_run fs files_yaml files_path t :
  files_setter fs (files_yaml, files_path) t =
    match yaml_load files_yaml with
    | Raise e => (Raise e, t)
    | Ok loaded =>
        match Py.iter loaded with
        | Raise e => (Raise e, t)
        | Ok descriptors =>
            match for_each
                    (files_loop fs (default (VList []) (obj t !! "files")) files_path)
                    descriptors ([], []) with
            | Raise e => (Raise e, t)
            | Ok (newfiles, newdata_files) =>
                (Ok tt,
                 mkTask (<["files_data" := VList newdata_files]>
                           (<["files" := VList newfiles]> (obj t)))
                        (<["files" := true]> (changed t)) (dir_files t))
            end
        end
    end.
Proof.
  unfold files_setter. run_M.
  destruct (yaml_load files_yaml) as [loaded|e]; [|reflexivity].
  destruct (Py.iter loaded) as [descriptors|e]; [|reflexivity].
  destruct (for_each _ _ _) as [[nf nd]|e]; reflexivity.
Qed.

(** ** Dirty markers along a session *)

Lemma task_inv_init o dir : task_inv (Task_init o dir).
Proof. intros k b H. simpl in H. by rewrite lookup_empty in H. Qed.

Lemma task_inv_set k0 v t :
  k0 ∈ all_properties → k0 ≠ "meta" → task_inv t →
  task_inv (mkTask (<[k0 := v]> (obj t)) (<[k0 := true]> (changed t)) (dir_files t)).
Proof.
  intros Hin Hne Hinv k b. simpl.
  destruct (decide (k0 = k)) as [->|Hk].
  - rewrite !lookup_insert_eq. intros [= <-]. eauto.
  - rewrite !lookup_insert_ne by done. apply Hinv.
Qed.

Lemma task_inv_obj k0 v t :
  task_inv t → task_inv (mkTask (<[k0 := v]> (obj t)) (changed t) (dir_files t)).
Proof.
  intros Hinv k b Hk. simpl in *.
  destruct (Hinv k b Hk) as (? & ? & ? & ?). repeat split; try done.
  destruct (decide (k0 = k)) as [->|?].
  - rewrite lookup_insert_eq. eauto.
  - by rewrite lookup_insert_ne.
Qed.

Lemma meta_store_lookup o into k dflt :
  (k, dflt) ∈ meta_defaults →
  meta_store o into !! k = Some (default dflt (o !! k)).
Proof.
  intros Hin. unfold meta_store, meta_defaults in *. simpl in *.
  repeat (apply elem_of_cons in Hin as [Hin|Hin];
          [injection Hin as -> ->; by simplify_map_eq|]).
  by apply elem_of_nil in Hin.
Qed.

Lemma meta_store_lookup_other o into k :
  k ∉ meta_defaults.*1 → meta_store o into !! k = into !! k.
Proof.
  intros Hin. unfold meta_store, meta_defaults in *. simpl in *.
  repeat (apply not_elem_of_cons in Hin as [? Hin]).
  by rewrite !lookup_insert_ne.
Qed.

Lemma meta_mark_lookup c k :
  k ∈ meta_defaults.*1 → meta_mark c !! k = Some true.
Proof.
  intros Hin. unfold meta_mark, meta_defaults in *. simpl in *.
  repeat (apply elem_of_cons in Hin as [->|Hin]; [by simplify_map_eq|]).
  by apply elem_of_nil in Hin.
Qed.

Lemma meta_mark_lookup_other c k :
  k ∉ meta_defaults.*1 → meta_mark c !! k = c !! k.
Proof.
  intros Hin. unfold meta_mark, meta_defaults in *. simpl in *.
  repeat (apply not_elem_of_cons in Hin as [? Hin]).
  by rewrite !lookup_insert_ne.
Qed.

Lemma meta_key_default k :
  k ∈ meta_defaults.*1 → ∃ dflt, (k, dflt) ∈ meta_defaults.
Proof.
  intros ((k' & dflt) & -> & Hin)%list_elem_of_fmap. eauto.
Qed.

Lemma meta_key_property k :
  k ∈ meta_defaults.*1 → k ∈ all_properties ∧ k ≠ "meta".
Proof.
  unfold meta_defaults, all_properties. simpl. intros Hin.
  repeat (apply elem_of_cons in Hin as [->|Hin]; [split; [in_list|done]|]).
  by apply elem_of_nil in Hin.
Qed.

Lemma task_inv_meta o t :
  task_inv t →
  task_inv (mkTask (meta_store o (obj t)) (meta_mark (changed t)) (dir_files t)).
Proof.
  intros Hinv k b. simpl.
  destruct (decide (k ∈ meta_defaults.*1)) as [Hin|Hin].
  - rewrite meta_mark_lookup by done. intros [= <-].
    destruct (meta_key_property k Hin) as [? ?].
    destruct (meta_key_default k Hin) as [dflt Hd].
    rewrite (meta_store_lookup _ _ _ _ Hd). eauto.
  - rewrite meta_mark_lookup_other, meta_store_lookup_other by done.
    apply Hinv.
Qed.

Lemma task_inv_after c t : task_inv t → task_inv (after c t).
Proof.
  intros Hinv. unfold after. destruct c as [v|v|v|v|v|fs [y fp]]; cbn [run_call].
  - rewrite meta_setter_run. destruct (yaml_load v) as [[]|]; simpl; try done.
    by apply task_inv_meta.
  - rewrite description_setter_run. simpl.
    apply task_inv_set; [in_list|done|done].
  - rewrite script_setter_run. simpl.
    apply task_inv_set; [in_list|done|done].
  - rewrite param_setter_run. destruct (yaml_load v) as [p|]; simpl; try done.
    destruct (_validate_param p); simpl; try done.
    apply task_inv_set; [in_list|done|done].
  - rewrite paramschema_setter_run. destruct (yaml_load v) as [p|]; simpl; try done.
    destruct (_validate_paramschema p); simpl; try done.
    apply task_inv_set; [in_list|done|done].
  - rewrite files_setter_run. destruct (yaml_load y) as [l|]; simpl; try done.
    destruct (Py.iter l) as [ds|]; simpl; try done.
    destruct (for_each _ _ _) as [[nf nd]|]; simpl; try done.
    assert (task_inv (mkTask (<["files" := VList nf]> (obj t))
                             (<["files" := true]> (changed t)) (dir_files t)))
      as H by (apply task_inv_set; [in_list|done|done]).
    apply (task_inv_obj "files_data" (VList nd)) in H. exact H.
Qed.

Lemma reachable_inv t : reachable t → task_inv t.
Proof.
  induction 1 as [o dir|c t _ IH].
  - apply task_inv_init.
  - by apply task_inv_after.
Qed.

(** ** The patch *)

Lemma serialize_step_dirty t data x v :
  x ≠ "meta" → dirty t x = true → obj t !! x = Some v →
  serialize_step t data x = Ok (<[x := v]> data).
Proof.
  intros Hx Hd Hv. unfold serialize_step. fold (dirty t x).
  rewrite bool_decide_eq_false_2 by done. rewrite Hd. simpl. by rewrite Hv.
Qed.

Lemma serialize_step_skip t data x :
  ¬ (x ≠ "meta" ∧ dirty t x = true) → serialize_step t data x = Ok data.
Proof.
  intros Hskip. unfold serialize_step. fold (dirty t x).
  case_bool_decide; [done|]. destruct (dirty t x); [|done].
  exfalso. by apply Hskip.
Qed.

Lemma serialize_loop t l data0 :
  (∀ k, k ∈ l → k ≠ "meta" → dirty t k = true → is_Some (obj t !! k)) →
  ∃ data, for_each (serialize_step t) l data0 = Ok data ∧
    (∀ k, k ∈ l → k ≠ "meta" → dirty t k = true → data !! k = obj t !! k) ∧
    (∀ k, ¬ (k ∈ l ∧ k ≠ "meta" ∧ dirty t k = true) → data !! k = data0 !! k).
Proof.
  revert data0. induction l as [|x l IH]; intros data0 Hobj.
  - exists data0. split; [done|]. split; [|done].
    intros k Hk. by apply elem_of_nil in Hk.
  - assert (∀ k, k ∈ l → k ≠ "meta" → dirty t k = true → is_Some (obj t !! k))
      as Hobj' by (intros; apply Hobj; [by right|done|done]).
    cbn [for_each].
    destruct (decide (x ≠ "meta" ∧ dirty t x = true)) as [[Hx Hd]|Hskip].
    + destruct (Hobj x) as [v Hv]; [by left|done|done|].
      rewrite (serialize_step_dirty _ _ _ v) by done.
      destruct (IH (<[x := v]> data0) Hobj') as (data & Hrun & Hin & Hout).
      exists data. split; [exact Hrun|]. split.
      * intros k Hk Hne Hdk. destruct (decide (k ∈ l)) as [Hl|Hl]; [by apply Hin|].
        apply elem_of_cons in Hk as [->|?]; [|done].
        rewrite Hout by (by intros (? & _)). by rewrite lookup_insert_eq.
      * intros k Hk.
        rewrite Hout by (intros (? & ? & ?); apply Hk; by repeat split; [right|..]).
        apply lookup_insert_ne. intros <-. apply Hk. by repeat split; [left|..].
    + rewrite serialize_step_skip by done.
      destruct (IH data0 Hobj') as (data & Hrun & Hin & Hout).
      exists data. split; [exact Hrun|]. split.
      * intros k Hk Hne Hdk. apply elem_of_cons in Hk as [->|?]; [|by apply Hin].
        exfalso. by apply Hskip.
      * intros k Hk. apply Hout. intros (? & ? & ?). apply Hk.
        by repeat split; [right|..].
Qed.

Lemma serialize_as_task_inv t :
  task_inv t →
  ∃ data, serialize_as_task t = (Ok data, t) ∧
    ∀ k, (dirty t k = false → data !! k = None) ∧
         (dirty t k = true → ∃ v, obj t !! k = Some v ∧ data !! k = Some v).
Proof.
  intros Hinv.
  assert (∀ k, dirty t k = true →
               k ∈ all_properties ∧ k ≠ "meta" ∧ is_Some (obj t !! k)) as Hd.
  { intros k Hk. unfold dirty in Hk.
    destruct (changed t !! k) as [b|] eqn:Hc; [|done].
    destruct (Hinv k b Hc) as (_ & ? & ? & ?). done. }
  destruct (serialize_loop t all_properties ∅) as (data & Hrun & Hin & Hout).
  { intros k _ _ Hk. by apply Hd. }
  exists data. unfold serialize_as_task. rewrite Hrun. split; [done|].
  intros k. split.
  - intros Hk. rewrite Hout; [apply lookup_empty|]. intros (_ & _ & ?). congruence.
  - intros Hk. destruct (Hd k Hk) as (Hp & Hne & [v Hv]).
    exists v. split; [done|]. rewrite Hin by done. done.
Qed.

Lemma serialize_as_task_skips_meta t data t' :
  serialize_as_task t = (Ok data, t') → data !! "meta" = None.
Proof.
  intros H.
  assert (for_each (serialize_step t) all_properties ∅ = Ok data) as Hrun
    by (unfold serialize_as_task in H; congruence).
  clear H.
  assert (∀ l d0 d, for_each (serialize_step t) l d0 = Ok d →
                    d0 !! "meta" = None → d !! "meta" = None) as Hloop.
  { induction l as [|x l IH]; cbn [for_each]; intros d0 d.
    - by intros [= <-].
    - destruct (serialize_step t d0 x) as [d1|e] eqn:Hstep; [|done].
      intros Hd H0. apply (IH _ _ Hd).
      unfold serialize_step in Hstep. case_bool_decide as Hx; [by injection Hstep as <-|].
      destruct (negb _); [by injection Hstep as <-|].
      simpl in Hstep. destruct (obj t !! x) as [v|]; [|done].
      injection Hstep as <-. by rewrite lookup_insert_ne. }
  apply (Hloop _ _ _ Hrun), lookup_empty.
Qed.

Lemma meta_defaults_eq :
  meta_defaults =
    [("public", VBool false); ("importable", VBool false);
     ("distributable", VBool false); ("creatorLogType", VStr "none");
     ("authorLogType", VStr "none"); ("title", VStr "")].
Proof. reflexivity. Qed.

Lemma meta_run t :
  meta t = (Ok (yaml_dump (VDict (meta_store (obj t) ∅))), t).
Proof. reflexivity. Qed.

Lemma meta_store_dom o into k :
  is_Some (meta_store o into !! k) ↔ k ∈ meta_defaults.*1 ∨ is_Some (into !! k).
Proof.
  destruct (decide (k ∈ meta_defaults.*1)) as [Hin|Hin].
  - destruct (meta_key_default k Hin) as [dflt Hd].
    rewrite (meta_store_lookup _ _ _ _ Hd). split; eauto.
  - rewrite meta_store_lookup_other by done. split; [by right|by intros [?|?]].
Qed.

(** C4: the patch [serialize_as_task] returns holds exactly the dirty fields.
    In every state a task reaches, the call returns a dictionary in which a
    field that is not dirty is absent, whatever [obj] holds for it, and a
    dirty field is present with the value [obj] holds. *)
Theorem serialize_as_task_exactly_dirty t :
  reachable t →
  ∃ data, serialize_as_task t = (Ok data, t) ∧
    ∀ k, (dirty t k = false → data !! k = None) ∧
         (dirty t k = true → ∃ v, obj t !! k = Some v ∧ data !! k = Some v).
Proof.
  intros Hr. apply reachable_inv in Hr.
  destruct (serialize_as_task_inv t Hr) as (data & Hrun & Hk).
  exists data. split; [exact Hrun|]. intros k. destruct (Hk k). by split.
Qed.

(** C10: the patch never has a key [meta].  In every state a task reaches
    the patch is produced without that key, and after the [meta] setter
    stored a mapping the patch carries each of the six sub-keys with the
    value the setter derived: the mapping's value, or the sub-key's
    default. *)
Theorem serialize_as_task_flattens_meta t :
  reachable t →
  (∃ data, serialize_as_task t = (Ok data, t) ∧ data !! "meta" = None) ∧
  (∀ value o, yaml_load value = Ok (VDict o) →
     ∃ data,
       serialize_as_task (after (SetMeta value) t)
         = (Ok data, after (SetMeta value) t) ∧
       data !! "meta" = None ∧
       Forall (λ kd,
                 data !! kd.1 = Some (default kd.2 (o !! kd.1)))
         [("public", VBool false); ("importable", VBool false);
          ("distributable", VBool false); ("creatorLogType", VStr "none");
          ("authorLogType", VStr "none"); ("title", VStr "")]).
Proof.
  intros Hr. split.
  - destruct (serialize_as_task_inv t (reachable_inv t Hr)) as (data & Hrun & _).
    exists data. split; [exact Hrun|]. by eapply serialize_as_task_skips_meta.
  - intros value o Hload.
    pose proof (reachable_inv _ (reachable_call (SetMeta value) t Hr)) as Hinv.
    destruct (serialize_as_task_inv _ Hinv) as (data & Hrun & Hk).
    exists data. split; [exact Hrun|].
    split; [by eapply serialize_as_task_skips_meta|].
    rewrite <- meta_defaults_eq. apply Forall_forall. intros [k dflt] Hin.
    cbn [fst snd].
    assert (after (SetMeta value) t =
              mkTask (meta_store o (obj t)) (meta_mark (changed t)) (dir_files t))
      as Hafter.
    { unfold after. cbn [run_call]. rewrite meta_setter_run, Hload. done. }
    destruct (Hk k) as [_ Hdirty]. destruct Hdirty as (v & Hv & ->).
    + rewrite Hafter. unfold dirty. simpl.
      rewrite meta_mark_lookup; [done|]. apply list_elem_of_fmap. by exists (k, dflt).
    + rewrite Hafter in Hv. simpl in Hv.
      by rewrite (meta_store_lookup _ _ _ _ Hin) in Hv.
Qed.

(** C9: the [meta] getter dumps a dictionary that holds exactly the six
    metadata sub-keys, each with the value of [obj] or, when [obj] has no such
    key, its default ([False] for [public], [importable] and
    [distributable], ['none'] for [creatorLogType] and [authorLogType], ['']
    for [title]); the [meta] setter, given a mapping, stores for every
    sub-key the mapping's value or the same default and marks the sub-key
    dirty. *)
Theorem meta_getter_and_setter t :
  (∃ o, meta t = (Ok (yaml_dump (VDict o)), t) ∧
     Forall (λ kd,
               o !! kd.1 = Some (default kd.2 (obj t !! kd.1)))
       [("public", VBool false); ("importable", VBool false);
        ("distributable", VBool false); ("creatorLogType", VStr "none");
        ("authorLogType", VStr "none"); ("title", VStr "")] ∧
     (∀ k, k ∉ ["public"; "importable"; "distributable"; "creatorLogType";
                "authorLogType"; "title"] → o !! k = None)) ∧
  (∀ value o, yaml_load value = Ok (VDict o) →
     ∃ t', meta_setter value t = (Ok tt, t') ∧
       Forall (λ kd,
                 obj t' !! kd.1 = Some (default kd.2 (o !! kd.1)) ∧
                 dirty t' kd.1 = true)
         [("public", VBool false); ("importable", VBool false);
          ("distributable", VBool false); ("creatorLogType", VStr "none");
          ("authorLogType", VStr "none"); ("title", VStr "")] ∧
       (∀ k, k ∉ ["public"; "importable"; "distributable"; "creatorLogType";
                  "authorLogType"; "title"] →
          obj t' !! k = obj t !! k ∧ changed t' !! k = changed t !! k)).
Proof.
  assert (Hkeys : ["public"; "importable"; "distributable"; "creatorLogType";
                   "authorLogType"; "title"] = meta_defaults.*1) by reflexivity.
  rewrite <- !meta_defaults_eq, !Hkeys. split.
  - exists (meta_store (obj t) ∅). split; [apply meta_run|]. split.
    + apply Forall_forall. intros [k dflt] Hin. by apply meta_store_lookup.
    + intros k Hk. by rewrite meta_store_lookup_other.
  - intros value o Hload. rewrite meta_setter_run, Hload.
    eexists. split; [reflexivity|]. split.
    + apply Forall_forall. intros [k dflt] Hin. unfold dirty. cbn [fst snd obj changed].
      split; [by apply meta_store_lookup|].
      rewrite meta_mark_lookup; [done|]. apply list_elem_of_fmap. by exists (k, dflt).
    + intros k Hk. simpl.
      by rewrite meta_store_lookup_other, meta_mark_lookup_other.
Qed.

(** ** Parameter lists *)

Lemma Py_eq_true a b : Py.eq a b = true → ∃ s, a = VStr s ∧ b = VStr s.
Proof.
  destruct a, b; simpl; try done.
  intros ->%bool_decide_eq_true. eauto.
Qed.

Lemma Py_eq_refl s : Py.eq (VStr s) (VStr s) = true.
Proof. simpl. by apply bool_decide_eq_true. Qed.


Lemma for_each_unit_rejects {A} (V : A → result unit) l x :
  x ∈ l → (∃ e, V x = Raise e) → ∃ e, for_each (λ _ p, V p) l tt = Raise e.
Proof.
  intros Hin [e Hx]. induction l as [|y l IH]; [by apply elem_of_nil in Hin|].
  cbn [for_each]. destruct (V y) as [[]|e'] eqn:Hy; simpl; [|eauto].
  apply elem_of_cons in Hin as [->|Hin]; [congruence|by apply IH].
Qed.





Lemma paramschema_types_outside ty :
  ¬ (∃ s, s ∈ paramschema_types ∧ ty = VStr s) →
  existsb (λ s, Py.eq ty (VStr s)) paramschema_types = false.
Proof.
  intros Hout. apply not_true_is_false. intros Hex. apply Hout.
  apply existsb_exists in Hex as (s & Hin & Heq).
  apply Py_eq_true in Heq as (s' & -> & [= <-]).
  exists s. split; [by apply list_elem_of_In|done].
Qed.

Lemma _validate_paramschema_field_enum d ty :
  d !! "type" = Some ty →
  ¬ (∃ s, s ∈ paramschema_types ∧ ty = VStr s) →
  ∃ e, _validate_paramschema_field (VDict d) = Raise e.
Proof.
  intros Hty Hout%paramschema_types_outside.
  unfold _validate_paramschema_field, raise_if. cbn -[existsb].
  destruct (d !! "name") as [n|] eqn:Hn; cbn -[existsb]; [|eauto].
  destruct (Py.isinstance_str n); cbn -[existsb]; [|eauto].
  rewrite Hty. cbn -[existsb]. rewrite Hout. simpl. eauto.
Qed.












(** A parameter assignment that raises, for whatever reason, leaves the task
    as it was. *)
Lemma param_setter_raise value t e t' :
  param_setter value t = (Raise e, t') → t' = t.
Proof.
  rewrite param_setter_run.
  destruct (yaml_load value) as [p|]; [|by intros [= _ <-]].
  destruct (_validate_param p); [done|by intros [= _ <-]].
Qed.

Lemma paramschema_setter_raise value t e t' :
  paramschema_setter value t = (Raise e, t') → t' = t.
Proof.
  rewrite paramschema_setter_run.
  destruct (yaml_load value) as [p|]; [|by intros [= _ <-]].
  destruct (_validate_paramschema p); [done|by intros [= _ <-]].
Qed.


(** ** One round of the reconciliation loop *)

Lemma _validate_file_dict file u :
  _validate_file file = Ok u →
  ∃ d n, file = VDict d ∧ d !! "name" = Some (VStr n).
Proof.
  unfold _validate_file, raise_if. destruct file as [| | | |s|l|l|d]; simpl; try done.
  - destruct (Py.str_contains "name" s); done.
  - destruct (existsb _ l); done.
  - destruct (existsb _ l); done.
  - destruct (d !! "name") as [v|] eqn:Hn; simpl; [|done].
    destruct v; simpl; try done. eauto.
Qed.

Lemma attributes_update_inv m file e :
  attributes_update m (VDict file) = Ok e →
  ∃ od dd a, m = VDict od ∧ od !! "data" = Some (VDict dd) ∧
    dd !! "attributes" = Some (VDict a) ∧
    e = VDict (<["data" := VDict (<["attributes" := VDict (file ∪ a)]> dd)]> od).
Proof.
  unfold attributes_update. destruct m as [| | | | | | |od]; simpl; try done.
  destruct (od !! "data") as [dv|] eqn:Hd; simpl; [|done].
  destruct dv as [| | | | | | |dd]; simpl; try done.
  destruct (dd !! "attributes") as [av|] eqn:Ha; simpl; [|done].
  destruct av as [| | | | | | |a]; simpl; try done.
  intros [= <-]. by exists od, dd, a.
Qed.

Lemma attributes_update_run od dd a file :
  od !! "data" = Some (VDict dd) → dd !! "attributes" = Some (VDict a) →
  attributes_update (VDict od) (VDict file) =
    Ok (VDict (<["data" := VDict (<["attributes" := VDict (file ∪ a)]> dd)]> od)).
Proof. intros Hd Ha. unfold attributes_update. simpl. rewrite Hd. simpl. by rewrite Ha. Qed.

Lemma files_loop_run fs oldfiles files_path nf nd file d n path st olds matched :
  resolves fs files_path file d n path st →
  Py.iter oldfiles = Ok olds →
  filter_r (old_matches (VStr n) (sha256_hexdigest (f_bytes st))) olds = Ok matched →
  files_loop fs oldfiles files_path (nf, nd) file =
    match matched with
    | m :: _ =>
        e ← attributes_update m file; Ok ((nf ++ [e])%list, nd)
    | [] =>
        e ← minted (sha256_hexdigest (f_bytes st)) st file;
        Ok ((nf ++ [e])%list,
            (nd ++ [transfer n (sha256_hexdigest (f_bytes st)) path])%list)
    end.
Proof.
  intros (-> & Hv & Hn & Hp & Hfs) Hiter Hfilter.
  unfold files_loop. rewrite Hv. cbn [mbind result_bind].
  unfold Py.getitem at 1. rewrite Hn. cbn [mbind result_bind].
  rewrite Hp. cbn [mbind result_bind].
  unfold fs_open. rewrite Hfs. cbn [mbind result_bind].
  rewrite Hiter. cbn [mbind result_bind].
  rewrite Hfilter. cbn [mbind result_bind].
  destruct matched as [|m ms]; reflexivity.
Qed.

Lemma files_loop_inv fs oldfiles files_path nf nd file nf' nd' :
  files_loop fs oldfiles files_path (nf, nd) file = Ok (nf', nd') →
  ∃ d n path st olds matched,
    resolves fs files_path file d n path st ∧
    Py.iter oldfiles = Ok olds ∧
    filter_r (old_matches (VStr n) (sha256_hexdigest (f_bytes st))) olds
      = Ok matched.
Proof.
  intros Hrun. unfold files_loop in Hrun.
  destruct (_validate_file file) as [[]|] eqn:Hv; [|done].
  destruct (_validate_file_dict _ _ Hv) as (d & n & -> & Hn).
  cbn [mbind result_bind] in Hrun. unfold Py.getitem at 1 in Hrun.
  rewrite Hn in Hrun. cbn [mbind result_bind] in Hrun.
  destruct (first (located files_path (VStr n))) as [path|] eqn:Hp; [|done].
  cbn [mbind result_bind] in Hrun. unfold fs_open in Hrun.
  destruct (fs path) as [st|] eqn:Hfs; [|done].
  cbn [mbind result_bind] in Hrun.
  destruct (Py.iter oldfiles) as [olds|] eqn:Hiter; [|done].
  cbn [mbind result_bind] in Hrun.
  destruct (filter_r _ olds) as [matched|] eqn:Hfilter; [|done].
  exists d, n, path, st, olds, matched. done.
Qed.

Lemma for_each_app {A S} (body : S → A → result S) l1 l2 s :
  for_each body (l1 ++ l2)%list s = (s' ← for_each body l1 s; for_each body l2 s').
Proof.
  revert s. induction l1 as [|x l1 IH]; intros s; cbn [for_each app]; [done|].
  destruct (body s x) as [s'|e]; cbn [mbind result_bind]; [apply IH|done].
Qed.

(** The loop only appends: running a round on [(nf, nd)] is running it on
    empty lists and appending what it produced. *)
Lemma files_loop_shift fs oldfiles files_path nf nd file :
  files_loop fs oldfiles files_path (nf, nd) file =
    (r ← files_loop fs oldfiles files_path ([], []) file;
     Ok ((nf ++ r.1)%list, (nd ++ r.2)%list)).
Proof.
  unfold files_loop.
  destruct (_validate_file file); cbn [mbind result_bind]; [|done].
  destruct (Py.getitem file "name") as [name|]; cbn [mbind result_bind]; [|done].
  destruct (first (located files_path name)) as [path|]; cbn [mbind result_bind]; [|done].
  destruct (fs_open fs path) as [st|]; cbn [mbind result_bind]; [|done].
  destruct (Py.iter oldfiles) as [olds|]; cbn [mbind result_bind]; [|done].
  destruct (filter_r _ olds) as [matched|]; cbn [mbind result_bind]; [|done].
  destruct (bool_decide _).
  - destruct (first matched) as [m|]; cbn [mbind result_bind]; [|done].
    destruct (attributes_update m file); cbn [mbind result_bind fst snd]; [|done].
    by rewrite app_nil_r.
  - destruct (minted _ _ file); cbn [mbind result_bind fst snd]; done.
Qed.

Lemma for_each_files_loop_shift fs oldfiles files_path l nf nd :
  for_each (files_loop fs oldfiles files_path) l (nf, nd) =
    (r ← for_each (files_loop fs oldfiles files_path) l ([], []);
     Ok ((nf ++ r.1)%list, (nd ++ r.2)%list)).
Proof.
  revert nf nd. induction l as [|x l IH]; intros nf nd; cbn [for_each].
  - cbn [mbind result_bind fst snd]. by rewrite !app_nil_r.
  - rewrite files_loop_shift.
    destruct (files_loop fs oldfiles files_path ([], []) x) as [[a b]|e];
      cbn [mbind result_bind fst snd]; [|done].
    rewrite (IH (nf ++ a)%list (nd ++ b)%list), (IH a b).
    destruct (for_each _ l ([], [])) as [[a' b']|e]; cbn [mbind result_bind fst snd];
      [|done].
    by rewrite !app_assoc.
Qed.

(** A round that returns has appended exactly one entry, and at most one
    transfer. *)
Lemma files_loop_round fs oldfiles files_path file x y :
  files_loop fs oldfiles files_path ([], []) file = Ok (x, y) →
  ∃ d n path st olds matched,
    resolves fs files_path file d n path st ∧
    Py.iter oldfiles = Ok olds ∧
    filter_r (old_matches (VStr n) (sha256_hexdigest (f_bytes st))) olds
      = Ok matched ∧
    ((∃ m ms e, matched = m :: ms ∧ attributes_update m file = Ok e ∧
                x = [e] ∧ y = []) ∨
     (∃ e, matched = [] ∧
           minted (sha256_hexdigest (f_bytes st)) st file = Ok e ∧
           x = [e] ∧ y = [transfer n (sha256_hexdigest (f_bytes st)) path])).
Proof.
  intros Hrun.
  destruct (files_loop_inv _ _ _ _ _ _ _ _ Hrun)
    as (d & n & path & st & olds & matched & Hres & Hiter & Hfilter).
  exists d, n, path, st, olds, matched.
  split; [done|]. split; [done|]. split; [done|].
  rewrite (files_loop_run _ _ _ _ _ _ _ _ _ _ _ _ Hres Hiter Hfilter) in Hrun.
  destruct matched as [|m ms].
  - right. destruct (minted _ st file) as [e|] eqn:He; [|done].
    injection Hrun as <- <-. by exists e.
  - left. destruct (attributes_update m file) as [e|] eqn:He; [|done].
    injection Hrun as <- <-. by exists m, ms, e.
Qed.

Lemma for_each_files_loop_length fs oldfiles files_path l nf nd :
  for_each (files_loop fs oldfiles files_path) l ([], []) = Ok (nf, nd) →
  length nf = length l.
Proof.
  revert nf nd. induction l as [|x l IH]; intros nf nd; cbn [for_each].
  - by intros [= <- <-].
  - destruct (files_loop fs oldfiles files_path ([], []) x) as [[a b]|e] eqn:Hx;
      cbn [mbind result_bind]; [|done].
    rewrite for_each_files_loop_shift.
    destruct (for_each _ l ([], [])) as [[a' b']|e] eqn:Hl;
      cbn [mbind result_bind fst snd]; [|done].
    intros [= <- <-]. rewrite length_app, (IH a' b' eq_refl).
    apply files_loop_round in Hx
      as (? & ? & ? & ? & ? & ? & _ & _ & _ & [(? & ? & ? & _ & _ & -> & _)|(? & _ & _ & -> & _)]);
      done.
Qed.

(** The loop over [pre ++ file :: post] is the loop over [pre], one round
    for [file] and the loop over [post], each started on empty lists, with
    the results appended in that order. *)
Lemma for_each_files_loop_split fs oldfiles files_path pre file post nf nd :
  for_each (files_loop fs oldfiles files_path) (pre ++ file :: post)%list ([], [])
    = Ok (nf, nd) →
  ∃ nf0 nd0 x y nf1 nd1,
    for_each (files_loop fs oldfiles files_path) pre ([], []) = Ok (nf0, nd0) ∧
    files_loop fs oldfiles files_path ([], []) file = Ok (x, y) ∧
    for_each (files_loop fs oldfiles files_path) post ([], []) = Ok (nf1, nd1) ∧
    nf = (nf0 ++ x ++ nf1)%list ∧ nd = (nd0 ++ y ++ nd1)%list ∧
    length nf0 = length pre.
Proof.
  rewrite for_each_app.
  destruct (for_each _ pre ([], [])) as [[nf0 nd0]|e] eqn:Hpre;
    cbn [mbind result_bind]; [|done].
  cbn [for_each]. rewrite files_loop_shift.
  destruct (files_loop fs oldfiles files_path ([], []) file) as [[x y]|e] eqn:Hx;
    cbn [mbind result_bind fst snd]; [|done].
  rewrite for_each_files_loop_shift.
  destruct (for_each _ post ([], [])) as [[nf1 nd1]|e] eqn:Hpost;
    cbn [mbind result_bind fst snd]; [|done].
  intros [= <- <-]. exists nf0, nd0, x, y, nf1, nd1.
  rewrite <- !app_assoc. repeat split; try done.
  by eapply for_each_files_loop_length.
Qed.

(** ** The [files] setter as a whole *)

Lemma files_setter_ok fs files_yaml files_path t t' :
  files_setter fs (files_yaml, files_path) t = (Ok tt, t') →
  ∃ loaded descriptors nf nd,
    yaml_load files_yaml = Ok loaded ∧ Py.iter loaded = Ok descriptors ∧
    for_each (files_loop fs (default (VList []) (obj t !! "files")) files_path)
      descriptors ([], []) = Ok (nf, nd) ∧
    t' = mkTask (<["files_data" := VList nd]> (<["files" := VList nf]> (obj t)))
                (<["files" := true]> (changed t)) (dir_files t).
Proof.
  rewrite files_setter_run.
  destruct (yaml_load files_yaml) as [loaded|] eqn:Hload; [|done].
  destruct (Py.iter loaded) as [descriptors|] eqn:Hiter; [|done].
  destruct (for_each _ descriptors _) as [[nf nd]|] eqn:Hloop; [|done].
  intros [= <-]. by exists loaded, descriptors, nf, nd.
Qed.

(** No partial replacement: a [files] assignment that raises leaves the task
    as it was. *)
Lemma files_setter_raise fs value t e t' :
  files_setter fs value t = (Raise e, t') → t' = t.
Proof.
  destruct value as [files_yaml files_path]. rewrite files_setter_run.
  destruct (yaml_load files_yaml) as [loaded|]; [|by intros [= _ <-]].
  destruct (Py.iter loaded) as [descriptors|]; [|by intros [= _ <-]].
  destruct (for_each _ descriptors _) as [[nf nd]|]; [done|by intros [= _ <-]].
Qed.

Lemma located_nil files_path n :
  (∀ dir f, (dir, f) ∈ files_path → f ≠ n) → located files_path (VStr n) = [].
Proof.
  intros Hno. unfold located. induction files_path as [|[dir f] l IH]; [done|].
  rewrite filter_cons. destruct (decide _) as [Heq|_].
  - exfalso. simpl in Heq. apply bool_decide_eq_true in Heq.
    by apply (Hno dir f); [left|].
  - apply IH. intros dir' f' Hin. apply (Hno dir'). by right.
Qed.

(** C8: a descriptor without a local file makes the [files] assignment fail
    with a [LookupError] and leaves the task untouched.  When the loop
    reaches a descriptor that [_validate_file] accepts and whose name is
    the name of no listed location (the descriptors before it were handled
    without an exception), the setter raises [IndexError], a subclass of
    [LookupError], and the task ([obj] with its fileset and pending
    transfers, and [changed]) is exactly as before the call. *)
Theorem files_setter_missing_file fs files_yaml files_path t
    loaded pre file post acc n :
  yaml_load files_yaml = Ok loaded →
  Py.iter loaded = Ok (pre ++ file :: post)%list →
  for_each (files_loop fs (default (VList []) (obj t !! "files")) files_path)
    pre ([], []) = Ok acc →
  _validate_file file = Ok tt →
  Py.getitem file "name" = Ok (VStr n) →
  (∀ dir f, (dir, f) ∈ files_path → f ≠ n) →
  files_setter fs (files_yaml, files_path) t = (Raise IndexError, t) ∧
  is_LookupError IndexError = true.
Proof.
  intros Hload Hiter Hpre Hv Hn Hno. split; [|done].
  rewrite files_setter_run, Hload, Hiter, for_each_app, Hpre.
  cbn [mbind result_bind for_each]. destruct acc as [nf nd].
  unfold files_loop. rewrite Hv. cbn [mbind result_bind].
  rewrite Hn. cbn [mbind result_bind].
  rewrite located_nil by done. done.
Qed.

Lemma get_data_files_run t :
  get_data_files t = (Ok (default (VList []) (obj t !! "files_data")), t).
Proof.
  unfold get_data_files, Py.getitem.
  destruct (obj t !! "files_data") as [v|]; reflexivity.
Qed.

(** C5 (as the code has it): [get_data_files] returns the pending transfers
    and clears nothing.  After a [files] assignment that returned, the call
    returns the tuples the loop collected and leaves the task unchanged, so
    a second call returns the same tuples again. *)
Theorem get_data_files_keeps_transfers fs files_yaml files_path t t' :
  files_setter fs (files_yaml, files_path) t = (Ok tt, t') →
  ∃ loaded descriptors nf nd,
    yaml_load files_yaml = Ok loaded ∧ Py.iter loaded = Ok descriptors ∧
    for_each (files_loop fs (default (VList []) (obj t !! "files")) files_path)
      descriptors ([], []) = Ok (nf, nd) ∧
    get_data_files t' = (Ok (VList nd), t') ∧
    (x ← get_data_files; y ← get_data_files; mret (x, y)) t'
      = (Ok (VList nd, VList nd), t').
Proof.
  intros (loaded & descriptors & nf & nd & Hload & Hiter & Hloop & ->)%files_setter_ok.
  exists loaded, descriptors, nf, nd.
  assert (get_data_files
            (mkTask (<["files_data" := VList nd]> (<["files" := VList nf]> (obj t)))
                    (<["files" := true]> (changed t)) (dir_files t))
          = (Ok (VList nd), mkTask (<["files_data" := VList nd]>
                                      (<["files" := VList nf]> (obj t)))
                                   (<["files" := true]> (changed t)) (dir_files t)))
    as Hget by (rewrite get_data_files_run; simpl; by rewrite lookup_insert_eq).
  repeat split; try done.
  unfold mbind, M_bind. rewrite Hget. by rewrite Hget.
Qed.

(** ** Matching against the old entries *)

Lemma filter_r_none {A} (p : A → result bool) l :
  Forall (λ x, p x = Ok false) l → filter_r p l = Ok [].
Proof.
  induction 1 as [|x l Hx _ IH]; cbn [filter_r]; [done|].
  rewrite Hx. cbn [mbind result_bind]. rewrite IH. done.
Qed.

Lemma filter_r_first {A} (p : A → result bool) l1 x l2 matched :
  Forall (λ y, p y = Ok false) l1 → p x = Ok true →
  filter_r p (l1 ++ x :: l2)%list = Ok matched → ∃ ms, matched = x :: ms.
Proof.
  intros Hl1 Hx. revert matched.
  induction Hl1 as [|y l1 Hy _ IH]; intros matched; cbn [filter_r app].
  - rewrite Hx. cbn [mbind result_bind].
    destruct (filter_r p l2) as [ms|]; cbn [mbind result_bind]; [|done].
    intros [= <-]. eauto.
  - rewrite Hy. cbn [mbind result_bind].
    destruct (filter_r p (l1 ++ x :: l2)%list) as [r|]; cbn [mbind result_bind]; [|done].
    intros [= <-]. by apply IH.
Qed.

Lemma filter_r_elem {A} (p : A → result bool) l m ms :
  filter_r p l = Ok (m :: ms) → m ∈ l ∧ p m = Ok true.
Proof.
  revert m ms. induction l as [|x l IH]; intros m ms; cbn [filter_r]; [done|].
  destruct (p x) as [b|] eqn:Hx; cbn [mbind result_bind]; [|done].
  destruct (filter_r p l) as [r|]; cbn [mbind result_bind]; [|done].
  destruct b.
  - intros [= <- <-]. split; [by left|done].
  - intros [= ->]. destruct (IH m ms eq_refl). split; [by right|done].
Qed.

Lemma filter_r_total {A} (p : A → result bool) l :
  Forall (λ x, ∃ b, p x = Ok b) l →
  ∃ matched, filter_r p l = Ok matched ∧
    ∀ x, x ∈ l → p x = Ok true → matched ≠ [].
Proof.
  induction 1 as [|x l [b Hx] _ (r & IH & Hne)]; cbn [filter_r].
  - exists []. split; [done|]. intros x Hin. by apply elem_of_nil in Hin.
  - rewrite Hx, IH. cbn [mbind result_bind]. eexists. split; [done|].
    intros y Hin Hy. destruct b; [done|].
    apply elem_of_cons in Hin as [->|Hin]; [congruence|by eapply Hne].
Qed.

Lemma attributes_inv e v :
  attributes e = Ok v →
  ∃ od dd, e = VDict od ∧ od !! "data" = Some (VDict dd) ∧
           dd !! "attributes" = Some v.
Proof.
  unfold attributes. destruct e as [| | | | | | |od]; simpl; try done.
  destruct (od !! "data") as [dv|] eqn:Hd; simpl; [|done].
  destruct dv as [| | | | | | |dd]; simpl; try done.
  destruct (dd !! "attributes") as [av|] eqn:Ha; simpl; [|done].
  intros [= <-]. by exists od, dd.
Qed.

Lemma attributes_run od dd v :
  od !! "data" = Some (VDict dd) → dd !! "attributes" = Some v →
  attributes (VDict od) = Ok v.
Proof. intros Hd Ha. unfold attributes. simpl. rewrite Hd. simpl. by rewrite Ha. Qed.

(** [old_matches] in terms of the attributes of the old entry. *)
Lemma old_matches_attributes name hash f :
  old_matches name hash f =
    (a ← attributes f;
     n ← Py.getitem a "name";
     if Py.eq n name then
       h ← Py.getitem a "hashSHA256"; Ok (Py.eq h (VStr hash))
     else Ok false).
Proof.
  unfold old_matches, attributes.
  destruct (Py.getitem f "data") as [d|]; cbn [mbind result_bind]; [|done].
  destruct (Py.getitem d "attributes") as [a|]; cbn [mbind result_bind]; done.
Qed.

Lemma old_matches_true_inv name hash f :
  old_matches name hash f = Ok true →
  ∃ a n, attributes f = Ok (VDict a) ∧ name = VStr n ∧
         a !! "name" = Some (VStr n) ∧ a !! "hashSHA256" = Some (VStr hash).
Proof.
  rewrite old_matches_attributes.
  destruct (attributes f) as [av|]; cbn [mbind result_bind]; [|done].
  destruct av as [| | | | | | |a]; simpl; try done.
  destruct (a !! "name") as [nv|] eqn:Hn; simpl; [|done].
  destruct (Py.eq nv name) eqn:Heq; [|done].
  apply Py_eq_true in Heq as (n & -> & ->).
  destruct (a !! "hashSHA256") as [h|] eqn:Hh; simpl; [|done].
  intros [= Heq]. apply Py_eq_true in Heq as (s & -> & [= <-]).
  by exists a, n.
Qed.

Lemma old_matches_true a n hash f :
  attributes f = Ok (VDict a) → a !! "name" = Some (VStr n) →
  a !! "hashSHA256" = Some (VStr hash) →
  old_matches (VStr n) hash f = Ok true.
Proof.
  intros Ha Hn Hh. rewrite old_matches_attributes, Ha. simpl.
  rewrite Hn. simpl. rewrite bool_decide_eq_true_2 by done.
  rewrite Hh. simpl. by rewrite bool_decide_eq_true_2.
Qed.

Lemma old_matches_total name hash e :
  comparable e → ∃ b, old_matches name hash e = Ok b.
Proof.
  intros (a & Ha & [nv Hn] & [h Hh]). rewrite old_matches_attributes, Ha. simpl.
  rewrite Hn. simpl. destruct (Py.eq nv name); [|eauto].
  rewrite Hh. simpl. eauto.
Qed.

(** ** What a round leaves in the fileset *)

Lemma minted_run hash st d :
  minted hash st (VDict d) = Ok (fresh_entry hash st d).
Proof. reflexivity. Qed.

Lemma resolves_inj fs files_path file d n path st d' n' path' st' :
  resolves fs files_path file d n path st →
  resolves fs files_path file d' n' path' st' →
  d' = d ∧ n' = n ∧ path' = path ∧ st' = st.
Proof.
  intros (-> & _ & Hn & Hp & Hfs) ([= <-] & _ & Hn' & Hp' & Hfs').
  assert (n' = n) as -> by congruence.
  assert (path' = path) as -> by congruence.
  split; [done|]. split; [done|]. split; [done|]. congruence.
Qed.

Lemma filter_r_defined {A} (p : A → result bool) l matched :
  filter_r p l = Ok matched → Forall (λ x, ∃ b, p x = Ok b) l.
Proof.
  revert matched. induction l as [|x l IH]; intros matched; cbn [filter_r].
  - constructor.
  - destruct (p x) as [b|] eqn:Hx; cbn [mbind result_bind]; [|done].
    destruct (filter_r p l) as [r|]; cbn [mbind result_bind]; [|done].
    intros _. constructor; [by exists b|by eapply IH].
Qed.

(** The comparison of the loop returns [True] exactly for the entries that
    have the name and the digest. *)
Lemma old_matches_holds n hash f :
  old_matches (VStr n) hash f = Ok true ↔ holds f n hash.
Proof.
  split.
  - intros (a & n' & Ha & [= <-] & Hn & Hh)%old_matches_true_inv. by exists a.
  - intros (a & Ha & Hn & Hh). by eapply old_matches_true.
Qed.

(** When the comprehension returns, the entries without the name and the
    digest are those it leaves out. *)
Lemma old_matches_not_holds n hash l matched :
  filter_r (old_matches (VStr n) hash) l = Ok matched →
  Forall (λ o, ¬ holds o n hash) l →
  Forall (λ o, old_matches (VStr n) hash o = Ok false) l.
Proof.
  intros Hdef%filter_r_defined Hnot.
  rewrite Forall_forall in Hdef, Hnot. apply Forall_forall. intros o Hin.
  destruct (Hdef o Hin) as [[] Hb]; [|done].
  exfalso. by apply (Hnot o Hin), old_matches_holds.
Qed.

Lemma files_setter_lookup_files nf nd (o : gmap string value) :
  <["files_data" := VList nd]> (<["files" := VList nf]> o) !! "files"
    = Some (VList nf).
Proof. by rewrite lookup_insert_ne, lookup_insert_eq. Qed.

Lemma files_setter_lookup_files_data nf nd (o : gmap string value) :
  <["files_data" := VList nd]> (<["files" := VList nf]> o) !! "files_data"
    = Some (VList nd).
Proof. by rewrite lookup_insert_eq. Qed.

(** C1 (as the code has it): a descriptor whose file has the name and the
    digest of a previous entry reuses that entry.  Let the descriptor [d], at
    position [length pre] of the list, resolve to a file whose digest is
    [hash], and let [old] be the first previous entry whose attributes hold
    both that name under ['name'] and [hash] under ['hashSHA256'] (the
    entries before it may hold one of the two, not both).  After a [files] assignment that returned, the
    fileset holds at that position the entry [old] with the keys of [d]
    laid over its attributes: every key outside ['data'] (so the download and
    upload links) is the old one, an attribute that [d] carries has the
    value [d] gives it, and every other attribute (['size'],
    ['lastModified'] and ['hashSHA256'] when [d] has no such key) is the old
    one.  The pending transfers are those of the descriptors before and
    after it: this round adds none. *)
Theorem files_setter_reuses_entry fs files_yaml files_path t t'
    loaded pre file post d n path st o_pre old o_post :
  files_setter fs (files_yaml, files_path) t = (Ok tt, t') →
  yaml_load files_yaml = Ok loaded →
  Py.iter loaded = Ok (pre ++ file :: post)%list →
  resolves fs files_path file d n path st →
  Py.iter (default (VList []) (obj t !! "files"))
    = Ok (o_pre ++ old :: o_post)%list →
  Forall (λ o, ¬ holds o n (sha256_hexdigest (f_bytes st))) o_pre →
  holds old n (sha256_hexdigest (f_bytes st)) →
  ∃ od dd a nf0 nd0 nf1 nd1,
    old = VDict od ∧ od !! "data" = Some (VDict dd) ∧
    dd !! "attributes" = Some (VDict a) ∧
    for_each (files_loop fs (default (VList []) (obj t !! "files")) files_path)
      pre ([], []) = Ok (nf0, nd0) ∧
    for_each (files_loop fs (default (VList []) (obj t !! "files")) files_path)
      post ([], []) = Ok (nf1, nd1) ∧
    length nf0 = length pre ∧
    obj t' !! "files" = Some (VList (nf0 ++ reused od dd a d :: nf1)) ∧
    obj t' !! "files_data" = Some (VList (nd0 ++ nd1)) ∧
    (∀ k, k ≠ "data" →
          Py.getitem (reused od dd a d) k = Py.getitem old k) ∧
    attributes (reused od dd a d) = Ok (VDict (d ∪ a)) ∧
    (∀ k v, d !! k = Some v → (d ∪ a) !! k = Some v) ∧
    (∀ k, d !! k = None → (d ∪ a) !! k = a !! k).
Proof.
  intros Hset Hload Hiter Hres Holds Hnot Hhas.
  apply files_setter_ok in Hset
    as (loaded' & descriptors & nf & nd & Hload' & Hiter' & Hloop & ->).
  assert (loaded' = loaded) as -> by congruence.
  assert (descriptors = (pre ++ file :: post)%list) as -> by congruence.
  apply for_each_files_loop_split in Hloop
    as (nf0 & nd0 & x & y & nf1 & nd1 & Hp & Hround & Hq & -> & -> & Hlen).
  apply files_loop_round in Hround
    as (d' & n' & path' & st' & olds & matched & Hres' & Holds' & Hfilter & Hcase).
  destruct (resolves_inj _ _ _ _ _ _ _ _ _ _ _ Hres Hres') as (-> & -> & -> & ->).
  assert (olds = (o_pre ++ old :: o_post)%list) as -> by congruence.
  assert (Hold : old_matches (VStr n) (sha256_hexdigest (f_bytes st)) old
                 = Ok true) by by apply old_matches_holds.
  assert (Hpre : Forall (λ o, old_matches (VStr n)
                                (sha256_hexdigest (f_bytes st)) o = Ok false)
                   o_pre).
  { pose proof (filter_r_defined _ _ _ Hfilter) as Hdef.
    apply Forall_app in Hdef as [Hdef _].
    rewrite Forall_forall in Hdef, Hnot. apply Forall_forall. intros o Hin.
    destruct (Hdef o Hin) as [[] Hb]; [|done].
    exfalso. by apply (Hnot o Hin), old_matches_holds. }
  destruct (filter_r_first _ _ _ _ _ Hpre Hold Hfilter) as [ms ->].
  destruct Hcase as [(m & ms' & e & [= <- <-] & Hupd & -> & ->)|(e & [=] & _)].
  destruct Hres as (-> & _).
  apply attributes_update_inv in Hupd as (od & dd & a & -> & Hd & Ha & ->).
  exists od, dd, a, nf0, nd0, nf1, nd1.
  split; [done|]. split; [done|]. split; [done|]. split; [done|].
  split; [done|]. split; [done|].
  cbn [obj]. split; [apply files_setter_lookup_files|].
  split; [apply files_setter_lookup_files_data|].
  split.
  { intros k Hk. unfold reused. simpl. by rewrite lookup_insert_ne. }
  split.
  { unfold reused. apply (attributes_run _ (<["attributes" := VDict (d ∪ a)]> dd));
      by rewrite lookup_insert_eq. }
  split.
  - intros k v Hk. by apply lookup_union_Some_l.
  - intros k Hk. by apply lookup_union_r.
Qed.

(** C2 (as the code has it): a descriptor that no previous entry matches on
    both name and digest gets a new entry and one transfer.  Let the
    descriptor [d], at position [length pre], resolve to the file [st] at
    [path] with digest [hash], and let no previous entry hold both that name
    and [hash] (an entry may hold the name with another digest, or the
    digest under another name).  After a [files] assignment that returned, the fileset holds
    at that position an entry with the keys ['type'] and ['data'] only (no
    links), whose attributes are [d] laid over the computed ['hashSHA256'],
    ['size'] and ['lastModified']: each of the three has the computed value
    unless [d] carries a key of that name.  The round appends exactly the
    tuple [(name, hash, path)] to the pending transfers, after those of the
    descriptors before it and before those of the descriptors after it. *)
Theorem files_setter_mints_entry fs files_yaml files_path t t'
    loaded pre file post d n path st olds :
  files_setter fs (files_yaml, files_path) t = (Ok tt, t') →
  yaml_load files_yaml = Ok loaded →
  Py.iter loaded = Ok (pre ++ file :: post)%list →
  resolves fs files_path file d n path st →
  Py.iter (default (VList []) (obj t !! "files")) = Ok olds →
  Forall (λ o, ¬ holds o n (sha256_hexdigest (f_bytes st))) olds →
  ∃ nf0 nd0 nf1 nd1,
    for_each (files_loop fs (default (VList []) (obj t !! "files")) files_path)
      pre ([], []) = Ok (nf0, nd0) ∧
    for_each (files_loop fs (default (VList []) (obj t !! "files")) files_path)
      post ([], []) = Ok (nf1, nd1) ∧
    length nf0 = length pre ∧
    obj t' !! "files"
      = Some (VList (nf0 ++ fresh_entry (sha256_hexdigest (f_bytes st)) st d :: nf1)) ∧
    obj t' !! "files_data"
      = Some (VList (nd0 ++ transfer n (sha256_hexdigest (f_bytes st)) path :: nd1)) ∧
    Py.contains "links" (fresh_entry (sha256_hexdigest (f_bytes st)) st d)
      = Ok false ∧
    attributes (fresh_entry (sha256_hexdigest (f_bytes st)) st d)
      = Ok (VDict (d ∪ fresh_attributes (sha256_hexdigest (f_bytes st)) st)) ∧
    (∀ k v, d !! k = Some v →
       (d ∪ fresh_attributes (sha256_hexdigest (f_bytes st)) st) !! k = Some v) ∧
    (d !! "hashSHA256" = None →
       (d ∪ fresh_attributes (sha256_hexdigest (f_bytes st)) st) !! "hashSHA256"
         = Some (VStr (sha256_hexdigest (f_bytes st)))) ∧
    (d !! "size" = None →
       (d ∪ fresh_attributes (sha256_hexdigest (f_bytes st)) st) !! "size"
         = Some (VInt (f_size st))) ∧
    (d !! "lastModified" = None →
       (d ∪ fresh_attributes (sha256_hexdigest (f_bytes st)) st) !! "lastModified"
         = Some (VInt (f_mtime_ms st))).
Proof.
  intros Hset Hload Hiter Hres Holds Hnot.
  apply files_setter_ok in Hset
    as (loaded' & descriptors & nf & nd & Hload' & Hiter' & Hloop & ->).
  assert (loaded' = loaded) as -> by congruence.
  assert (descriptors = (pre ++ file :: post)%list) as -> by congruence.
  apply for_each_files_loop_split in Hloop
    as (nf0 & nd0 & x & y & nf1 & nd1 & Hp & Hround & Hq & -> & -> & Hlen).
  apply files_loop_round in Hround
    as (d' & n' & path' & st' & olds' & matched & Hres' & Holds' & Hfilter & Hcase).
  destruct (resolves_inj _ _ _ _ _ _ _ _ _ _ _ Hres Hres') as (-> & -> & -> & ->).
  assert (olds' = olds) as -> by congruence.
  pose proof (old_matches_not_holds _ _ _ _ Hfilter Hnot) as Hnone.
  rewrite (filter_r_none _ _ Hnone) in Hfilter. injection Hfilter as <-.
  destruct Hcase as [(m & ms' & e & [=] & _)|(e & _ & Hmint & -> & ->)].
  destruct Hres as (-> & _). rewrite minted_run in Hmint. injection Hmint as <-.
  exists nf0, nd0, nf1, nd1.
  split; [done|]. split; [done|]. split; [done|].
  cbn [obj]. split; [apply files_setter_lookup_files|].
  split; [apply files_setter_lookup_files_data|].
  split; [done|]. split; [done|].
  split; [intros k v Hk; by apply lookup_union_Some_l|].
  unfold fresh_attributes.
  repeat split; intros Hk; rewrite lookup_union_r by done; by simplify_map_eq.
Qed.

(** ** The fileset a replacement produces *)

Lemma entry_for_comparable fs files_path file e :
  entry_for fs files_path file e → comparable e.
Proof. intros (d & n & path & st & a & h & _ & Ha & Hn & Hh & _). exists a. eauto. Qed.

Lemma files_loop_entry fs oldfiles files_path file x y :
  files_loop fs oldfiles files_path ([], []) file = Ok (x, y) →
  ∃ e, x = [e] ∧ entry_for fs files_path file e.
Proof.
  intros (d & n & path & st & olds & matched & Hres & _ & Hfilter & Hcase)%files_loop_round.
  pose proof Hres as (-> & _ & Hn & _).
  destruct Hcase as [(m & ms & e & -> & Hupd & -> & _)|(e & _ & Hmint & -> & _)].
  - apply filter_r_elem in Hfilter as [_ Hm].
    apply old_matches_true_inv in Hm as (a & n' & Ha & [= <-] & Han & Hah).
    apply attributes_update_inv in Hupd as (od & dd & a' & -> & Hd & Hda & ->).
    rewrite (attributes_run _ _ _ Hd Hda) in Ha. injection Ha as ->.
    exists (reused od dd a d). split; [done|].
    destruct (d !! "hashSHA256") as [h|] eqn:Hh.
    + exists d, n, path, st, (d ∪ a), h. split; [done|].
      split; [apply (attributes_run _ (<["attributes" := VDict (d ∪ a)]> dd));
              by rewrite lookup_insert_eq|].
      split; [by apply lookup_union_Some_l|].
      split; [by apply lookup_union_Some_l|intros; congruence].
    + exists d, n, path, st, (d ∪ a), (VStr (sha256_hexdigest (f_bytes st))).
      split; [done|].
      split; [apply (attributes_run _ (<["attributes" := VDict (d ∪ a)]> dd));
              by rewrite lookup_insert_eq|].
      split; [by apply lookup_union_Some_l|].
      split; [by rewrite lookup_union_r|intros; congruence].
  - rewrite minted_run in Hmint. injection Hmint as <-.
    exists (fresh_entry (sha256_hexdigest (f_bytes st)) st d). split; [done|].
    destruct (d !! "hashSHA256") as [h|] eqn:Hh.
    + exists d, n, path, st, (d ∪ fresh_attributes (sha256_hexdigest (f_bytes st)) st), h.
      split; [done|]. split; [done|].
      split; [by apply lookup_union_Some_l|].
      split; [by apply lookup_union_Some_l|intros; congruence].
    + exists d, n, path, st, (d ∪ fresh_attributes (sha256_hexdigest (f_bytes st)) st),
        (VStr (sha256_hexdigest (f_bytes st))).
      split; [done|]. split; [done|].
      split; [by apply lookup_union_Some_l|].
      split; [by rewrite lookup_union_r|intros; congruence].
Qed.

Lemma for_each_files_loop_entries fs oldfiles files_path l nf nd :
  for_each (files_loop fs oldfiles files_path) l ([], []) = Ok (nf, nd) →
  Forall2 (entry_for fs files_path) l nf.
Proof.
  revert nf nd. induction l as [|file l IH]; intros nf nd; cbn [for_each].
  - intros [= <- <-]. constructor.
  - destruct (files_loop fs oldfiles files_path ([], []) file) as [[x y]|] eqn:Hx;
      cbn [mbind result_bind]; [|done].
    rewrite for_each_files_loop_shift.
    destruct (for_each _ l ([], [])) as [[nf' nd']|] eqn:Hl;
      cbn [mbind result_bind fst snd]; [|done].
    intros [= <- <-]. apply files_loop_entry in Hx as (e & -> & He).
    constructor; [done|]. by eapply IH.
Qed.

Lemma for_each_files_loop_total fs oldfiles files_path l :
  Forall (λ file, ∃ r, files_loop fs oldfiles files_path ([], []) file = Ok r) l →
  ∃ nf nd, for_each (files_loop fs oldfiles files_path) l ([], []) = Ok (nf, nd).
Proof.
  induction 1 as [|file l [[x y] Hx] _ (nf & nd & IH)]; cbn [for_each]; [by eexists _, _|].
  rewrite Hx. cbn [mbind result_bind]. rewrite for_each_files_loop_shift, IH.
  cbn [mbind result_bind]. by eexists _, _.
Qed.

(** C6 (as the code has it): the names of the descriptors are never compared
    with each other.  When each descriptor on its own gets through a round
    of the loop, the [files] assignment returns, and the fileset has one
    entry per descriptor, in the order of the descriptors, each with its
    descriptor's name: two descriptors with the same name leave two entries
    with that name. *)
Theorem files_setter_keeps_duplicates fs files_yaml files_path t loaded descriptors :
  yaml_load files_yaml = Ok loaded →
  Py.iter loaded = Ok descriptors →
  Forall (λ file, ∃ r,
            files_loop fs (default (VList []) (obj t !! "files")) files_path
              ([], []) file = Ok r) descriptors →
  ∃ t' nf,
    files_setter fs (files_yaml, files_path) t = (Ok tt, t') ∧
    obj t' !! "files" = Some (VList nf) ∧
    length nf = length descriptors ∧
    ∀ i j fi fj nm,
      i ≠ j → descriptors !! i = Some fi → descriptors !! j = Some fj →
      Py.getitem fi "name" = Ok nm → Py.getitem fj "name" = Ok nm →
      ∃ ei ej ai aj,
        nf !! i = Some ei ∧ nf !! j = Some ej ∧
        attributes ei = Ok (VDict ai) ∧ attributes ej = Ok (VDict aj) ∧
        ai !! "name" = Some nm ∧ aj !! "name" = Some nm.
Proof.
  intros Hload Hiter Hall.
  destruct (for_each_files_loop_total _ _ _ _ Hall) as (nf & nd & Hloop).
  pose proof (for_each_files_loop_entries _ _ _ _ _ _ Hloop) as Hent.
  eexists _, nf. rewrite files_setter_run, Hload, Hiter, Hloop.
  split; [reflexivity|]. cbn [obj].
  split; [apply files_setter_lookup_files|].
  split; [symmetry; by eapply Forall2_length|].
  assert (∀ i f nm, descriptors !! i = Some f → Py.getitem f "name" = Ok nm →
            ∃ e a, nf !! i = Some e ∧ attributes e = Ok (VDict a) ∧
                   a !! "name" = Some nm) as Hpos.
  { intros i f nm Hi Hnm.
    destruct (Forall2_lookup_l _ _ _ _ _ Hent Hi) as (e & He & Hfor).
    destruct Hfor as (d & n & path & st & a & h & (-> & _ & Hn & _) & Ha & Han & _).
    simpl in Hnm. rewrite Hn in Hnm. injection Hnm as <-. by exists e, a. }
  intros i j fi fj nm _ Hi Hj Hni Hnj.
  destruct (Hpos i fi nm Hi Hni) as (ei & ai & ? & ? & ?).
  destruct (Hpos j fj nm Hj Hnj) as (ej & aj & ? & ? & ?).
  by exists ei, ej, ai, aj.
Qed.

(** ** When the replacement returns *)

(** A round returns when the descriptor resolves to a file and every old
    entry can be compared with it. *)
Lemma files_loop_returns fs oldfiles files_path file d n path st olds :
  resolves fs files_path file d n path st →
  Py.iter oldfiles = Ok olds →
  Forall (λ o, ∃ b, old_matches (VStr n) (sha256_hexdigest (f_bytes st)) o = Ok b)
    olds →
  ∃ r, files_loop fs oldfiles files_path ([], []) file = Ok r.
Proof.
  intros Hres Hiter Hcmp.
  destruct (filter_r_total _ _ Hcmp) as (matched & Hfilter & _).
  rewrite (files_loop_run fs oldfiles files_path [] [] _ _ _ _ _ olds matched
             Hres Hiter Hfilter).
  destruct Hres as (-> & _).
  destruct matched as [|m ms]; [rewrite minted_run; cbn [mbind result_bind]; eauto|].
  apply filter_r_elem in Hfilter as [_ Hm].
  apply old_matches_true_inv in Hm as (a & n' & Ha & _).
  apply attributes_inv in Ha as (od & dd & -> & Hdd & Hda).
  rewrite (attributes_update_run _ _ _ _ Hdd Hda). cbn [mbind result_bind]. eauto.
Qed.

(** The [files] assignment returns when the text loads as a list whose
    descriptors all resolve to files and can be compared with the old
    entries. *)
Lemma files_setter_returns fs files_yaml files_path t loaded descriptors olds :
  yaml_load files_yaml = Ok loaded →
  Py.iter loaded = Ok descriptors →
  Py.iter (default (VList []) (obj t !! "files")) = Ok olds →
  Forall (λ file, ∃ d n path st,
            resolves fs files_path file d n path st ∧
            Forall (λ o, ∃ b, old_matches (VStr n)
                                (sha256_hexdigest (f_bytes st)) o = Ok b) olds)
    descriptors →
  ∃ nf nd, files_setter fs (files_yaml, files_path) t = (Ok tt, replaced t nf nd).
Proof.
  intros Hload Hiter Holds Hall.
  destruct (for_each_files_loop_total fs (default (VList []) (obj t !! "files"))
              files_path descriptors) as (nf & nd & Hloop).
  { eapply Forall_impl; [exact Hall|].
    intros file (d & n & path & st & Hres & Hcmp). by eapply files_loop_returns. }
  exists nf, nd. by rewrite files_setter_run, Hload, Hiter, Hloop.
Qed.

(** ** Reconciling against one's own output *)

(** A round against a fileset [nf1] that already holds the entry of the
    descriptor reuses an entry and adds no transfer. *)
Lemma files_loop_again fs files_path nf1 file e nf nd :
  Forall comparable nf1 → e ∈ nf1 → entry_for fs files_path file e →
  Py.contains "hashSHA256" file = Ok false →
  ∃ e', files_loop fs (VList nf1) files_path (nf, nd) file
          = Ok ((nf ++ [e'])%list, nd).
Proof.
  intros Hcmp Hin (d & n & path & st & a & h & Hres & Ha & Hn & Hh & Hhash) Hnokey.
  pose proof Hres as (-> & _).
  assert (d !! "hashSHA256" = None) as Hd.
  { simpl in Hnokey. injection Hnokey as Hnokey.
    apply bool_decide_eq_false in Hnokey.
    destruct (d !! "hashSHA256"); [|done]. exfalso. apply Hnokey. eauto. }
  rewrite (Hhash Hd) in Hh.
  destruct (filter_r_total (old_matches (VStr n) (sha256_hexdigest (f_bytes st))) nf1)
    as (matched & Hfilter & Hne).
  { eapply Forall_impl; [exact Hcmp|]. intros o Ho. by apply old_matches_total. }
  rewrite (files_loop_run fs (VList nf1) files_path nf nd _ _ _ _ _ nf1 matched
             Hres eq_refl Hfilter).
  destruct matched as [|m ms].
  { exfalso. eapply Hne; [exact Hin| |done]. by eapply old_matches_true. }
  apply filter_r_elem in Hfilter as [Hm _].
  rewrite Forall_forall in Hcmp. destruct (Hcmp m Hm) as (am & Ham & _).
  apply attributes_inv in Ham as (od & dd & -> & Hdd & Hda).
  rewrite (attributes_update_run _ _ _ _ Hdd Hda). cbn [mbind result_bind]. eauto.
Qed.

Lemma for_each_files_loop_again fs files_path nf1 l nf nd :
  Forall comparable nf1 →
  Forall (λ file, ∃ e, e ∈ nf1 ∧ entry_for fs files_path file e) l →
  Forall (λ file, Py.contains "hashSHA256" file = Ok false) l →
  ∃ nf', for_each (files_loop fs (VList nf1) files_path) l (nf, nd) = Ok (nf', nd).
Proof.
  intros Hcmp Hent. revert nf.
  induction Hent as [|file l (e & Hin & He) _ IH]; intros nf Hkeys; cbn [for_each].
  - eauto.
  - apply Forall_cons in Hkeys as [Hkey Hkeys].
    destruct (files_loop_again fs files_path nf1 file e nf nd) as [e' ->]; try done.
    cbn [mbind result_bind]. by apply IH.
Qed.

Lemma Forall2_entry_elem {A B} (P : A → B → Prop) l k :
  Forall2 P l k → Forall (λ x, ∃ y, y ∈ k ∧ P x y) l.
Proof.
  induction 1 as [|x y l k Hxy _ IH]; constructor.
  - exists y. split; [by left|done].
  - eapply Forall_impl; [exact IH|]. intros x' (y' & ? & ?). exists y'.
    split; [by right|done].
Qed.

Lemma Forall2_entry_right {A B} (P : A → B → Prop) (Q : B → Prop) l k :
  (∀ x y, P x y → Q y) → Forall2 P l k → Forall Q k.
Proof. intros HPQ. induction 1; constructor; eauto. Qed.

(** C3 (as the code has it): reconciling the same descriptors against the
    fileset a replacement has produced, on the same files, produces no
    transfer, provided no descriptor carries a key ['hashSHA256'].  The
    second assignment returns, and the pending transfers it stores, which
    [get_data_files] then returns, are the empty list. *)
Theorem files_setter_twice_no_transfers fs files_yaml files_path t t1
    loaded descriptors :
  files_setter fs (files_yaml, files_path) t = (Ok tt, t1) →
  yaml_load files_yaml = Ok loaded →
  Py.iter loaded = Ok descriptors →
  Forall (λ file, Py.contains "hashSHA256" file = Ok false) descriptors →
  ∃ t2,
    files_setter fs (files_yaml, files_path) t1 = (Ok tt, t2) ∧
    obj t2 !! "files_data" = Some (VList []) ∧
    get_data_files t2 = (Ok (VList []), t2).
Proof.
  intros Hset Hload Hiter Hkeys.
  apply files_setter_ok in Hset
    as (loaded' & descriptors' & nf1 & nd1 & Hload' & Hiter' & Hloop & ->).
  assert (loaded' = loaded) as -> by congruence.
  assert (descriptors' = descriptors) as -> by congruence.
  apply for_each_files_loop_entries in Hloop as Hent.
  destruct (for_each_files_loop_again fs files_path nf1 descriptors [] [])
    as [nf2 Hloop2]; [| |done|].
  { eapply Forall2_entry_right; [|exact Hent].
    intros x y. apply entry_for_comparable. }
  { by eapply Forall2_entry_elem. }
  eexists. rewrite files_setter_run, Hload, Hiter.
  match goal with
  | |- context [default (VList []) ?o] =>
      replace (default (VList []) o) with (VList nf1)
        by (cbn [obj]; by rewrite files_setter_lookup_files)
  end.
  rewrite Hloop2.
  split; [reflexivity|]. cbn [obj].
  split; [apply files_setter_lookup_files_data|].
  rewrite get_data_files_run. cbn [obj].
  by rewrite files_setter_lookup_files_data.
Qed.

(** ** What the validators accept *)

Lemma _validate_file_ok_inv file :
  _validate_file file = Ok tt →
  ∃ d n ty it pl,
    file = VDict d ∧ d !! "name" = Some (VStr n) ∧ d !! "type" = Some (VStr ty) ∧
    d !! "importType" = Some (VStr it) ∧ d !! "preload" = Some (VBool pl) ∧
    ((∃ pr, d !! "priority" = Some (VInt pr)) ∨
     (∃ b, d !! "priority" = Some (VBool b))).
Proof.
  intros Hv. destruct (_validate_file_dict _ _ Hv) as (d & n & -> & Hn).
  unfold _validate_file, raise_if in Hv. simpl in Hv. rewrite Hn in Hv. simpl in Hv.
  destruct (d !! "type") as [[| | | |ty| | |]|] eqn:Hty; simpl in Hv; try done.
  destruct (d !! "importType") as [[| | | |it| | |]|] eqn:Hit; simpl in Hv; try done.
  destruct (d !! "preload") as [[|pl| | | | | |]|] eqn:Hpl; simpl in Hv; try done.
  destruct (d !! "priority") as [[|b|pr| | | | |]|] eqn:Hpr; simpl in Hv; try done.
  - exists d, n, ty, it, pl. repeat split; eauto.
  - exists d, n, ty, it, pl. repeat split; eauto.
Qed.

(** X1: [_validate_file] accepts exactly the dictionaries that have a [str]
    under [name], [type] and [importType], a [bool] under [preload] and an
    [int] (or a [bool], which is an [int] in Python) under [priority]; other
    keys are not looked at.  A dictionary it rejects is rejected with a
    [ValueError]. *)
Theorem _validate_file_accepts file :
  (_validate_file file = Ok tt ↔
   ∃ d n ty it pl,
     file = VDict d ∧ d !! "name" = Some (VStr n) ∧ d !! "type" = Some (VStr ty) ∧
     d !! "importType" = Some (VStr it) ∧ d !! "preload" = Some (VBool pl) ∧
     ((∃ pr, d !! "priority" = Some (VInt pr)) ∨
      (∃ b, d !! "priority" = Some (VBool b)))) ∧
  (∀ d e, file = VDict d → _validate_file file = Raise e → is_ValueError e = true).
Proof.
  split; [split|].
  - apply _validate_file_ok_inv.
  - intros (d & n & ty & it & pl & -> & Hn & Hty & Hit & Hpl & Hpr).
    unfold _validate_file, raise_if. simpl.
    rewrite Hn, Hty, Hit, Hpl. simpl.
    destruct Hpr as [[pr ->]|[b ->]]; reflexivity.
  - intros d e ->. unfold _validate_file, raise_if. simpl.
    destruct (d !! "name") as [[| | | |n| | |]|]; simpl; try (by intros [= <-]).
    destruct (d !! "type") as [[| | | |ty| | |]|]; simpl; try (by intros [= <-]).
    destruct (d !! "importType") as [[| | | |it| | |]|]; simpl; try (by intros [= <-]).
    destruct (d !! "preload") as [[|pl| | | | | |]|]; simpl; try (by intros [= <-]).
    destruct (d !! "priority") as [[|b|pr| | | | |]|]; simpl; try (by intros [= <-]); done.
Qed.


(** ** Calls and sessions *)

(** X3: an assignment that raises leaves the task as it was, whichever
    property it is and whatever it raises: every setter stores only after
    everything that can fail has been done. *)
Theorem run_call_raise_unchanged c t e t' :
  run_call c t = (Raise e, t') → t' = t.
Proof.
  destruct c as [v|v|v|v|v|fs value]; cbn [run_call].
  - rewrite meta_setter_run.
    destruct (yaml_load v) as [[]|]; by intros [= _ <-].
  - by rewrite description_setter_run.
  - by rewrite script_setter_run.
  - apply param_setter_raise.
  - apply paramschema_setter_raise.
  - apply files_setter_raise.
Qed.

Lemma after_frame c t k :
  k ∉ assigned c →
  obj (after c t) !! k = obj t !! k ∧ changed (after c t) !! k = changed t !! k.
Proof.
  unfold after. destruct c as [v|v|v|v|v|fs [y fp]]; cbn [run_call assigned]; intros Hk.
  - rewrite meta_setter_run. destruct (yaml_load v) as [[]|]; cbn [snd obj changed]; try done.
    by rewrite meta_store_lookup_other, meta_mark_lookup_other.
  - rewrite description_setter_run. cbn [snd obj changed].
    apply not_elem_of_cons in Hk as [Hk _]. by rewrite !lookup_insert_ne.
  - rewrite script_setter_run. cbn [snd obj changed].
    apply not_elem_of_cons in Hk as [Hk _]. by rewrite !lookup_insert_ne.
  - rewrite param_setter_run. destruct (yaml_load v) as [p|]; cbn [snd]; try done.
    destruct (_validate_param p); cbn [snd obj changed]; try done.
    apply not_elem_of_cons in Hk as [Hk _]. by rewrite !lookup_insert_ne.
  - rewrite paramschema_setter_run. destruct (yaml_load v) as [p|]; cbn [snd]; try done.
    destruct (_validate_paramschema p); cbn [snd obj changed]; try done.
    apply not_elem_of_cons in Hk as [Hk _]. by rewrite !lookup_insert_ne.
  - rewrite files_setter_run. destruct (yaml_load y) as [l|]; cbn [snd]; try done.
    destruct (Py.iter l) as [ds|]; cbn [snd]; try done.
    destruct (for_each _ _ _) as [[nf nd]|]; cbn [snd obj changed]; try done.
    apply not_elem_of_cons in Hk as [Hk1 Hk].
    apply not_elem_of_cons in Hk as [Hk2 _].
    by rewrite !lookup_insert_ne.
Qed.

Lemma after_dir_files c t : dir_files (after c t) = dir_files t.
Proof.
  unfold after. destruct c as [v|v|v|v|v|fs [y fp]]; cbn [run_call].
  - rewrite meta_setter_run. by destruct (yaml_load v) as [[]|].
  - by rewrite description_setter_run.
  - by rewrite script_setter_run.
  - rewrite param_setter_run. destruct (yaml_load v) as [p|]; [|done].
    by destruct (_validate_param p).
  - rewrite paramschema_setter_run. destruct (yaml_load v) as [p|]; [|done].
    by destruct (_validate_paramschema p).
  - rewrite files_setter_run. destruct (yaml_load y) as [l|]; [|done].
    destruct (Py.iter l) as [ds|]; [|done].
    by destruct (for_each _ _ _) as [[nf nd]|].
Qed.

Lemma after_dirty c t k : dirty t k = true → dirty (after c t) k = true.
Proof.
  unfold dirty. intros Hk.
  destruct (decide (k ∈ assigned c)) as [Hin|Hout].
  2:{ destruct (after_frame c t k Hout) as [_ ->]. done. }
  unfold after. destruct c as [v|v|v|v|v|fs [y fp]]; cbn [run_call assigned] in *.
  - rewrite meta_setter_run. destruct (yaml_load v) as [[]|]; cbn [snd changed]; try done.
    by rewrite meta_mark_lookup.
  - rewrite description_setter_run. cbn [snd changed].
    apply list_elem_of_singleton in Hin as ->. by rewrite lookup_insert_eq.
  - rewrite script_setter_run. cbn [snd changed].
    apply list_elem_of_singleton in Hin as ->. by rewrite lookup_insert_eq.
  - rewrite param_setter_run. destruct (yaml_load v) as [p|]; cbn [snd]; try done.
    destruct (_validate_param p); cbn [snd changed]; try done.
    apply list_elem_of_singleton in Hin as ->. by rewrite lookup_insert_eq.
  - rewrite paramschema_setter_run. destruct (yaml_load v) as [p|]; cbn [snd]; try done.
    destruct (_validate_paramschema p); cbn [snd changed]; try done.
    apply list_elem_of_singleton in Hin as ->. by rewrite lookup_insert_eq.
  - rewrite files_setter_run. destruct (yaml_load y) as [l|]; cbn [snd]; try done.
    destruct (Py.iter l) as [ds|]; cbn [snd]; try done.
    destruct (for_each _ _ _) as [[nf nd]|]; cbn [snd changed]; try done.
    destruct (decide (k = "files")) as [->|Hne]; [by rewrite lookup_insert_eq|].
    by rewrite lookup_insert_ne.
Qed.

Lemma session_snoc cs c t : session (cs ++ [c])%list t = after c (session cs t).
Proof. unfold session. by rewrite foldl_app. Qed.

Lemma session_cons c cs t : session (c :: cs) t = session cs (after c t).
Proof. reflexivity. Qed.

Lemma session_unassigned cs t k :
  Forall (λ c, k ∉ assigned c) cs →
  obj (session cs t) !! k = obj t !! k ∧
  changed (session cs t) !! k = changed t !! k.
Proof.
  revert t. induction cs as [|c cs IH]; intros t Hall; [done|].
  apply Forall_cons in Hall as [Hc Hall]. rewrite session_cons.
  destruct (IH (after c t) Hall) as [-> ->]. by apply after_frame.
Qed.

(** X4: a call touches only the keys it assigns.  Along any session, a key
    that none of the calls assigns keeps its value in [obj] and its marker in
    [changed]: setting one property never alters another. *)
Theorem session_frame cs t k :
  Forall (λ c, k ∉ assigned c) cs →
  obj (session cs t) !! k = obj t !! k ∧
  changed (session cs t) !! k = changed t !! k.
Proof. intros Hall. split; by apply session_unassigned. Qed.

(** X5: nothing clears a dirty marker.  A field that is dirty stays dirty
    through every later call, so it is in every later patch. *)
Theorem session_dirty cs t k :
  dirty t k = true → dirty (session cs t) k = true.
Proof.
  revert t. induction cs as [|c cs IH]; intros t Hk; [done|].
  rewrite session_cons. apply IH. by apply after_dirty.
Qed.

(** X6: the [description] and [script] getters return the text of the last
    assignment to their property, whatever other properties were assigned
    after it, and never raise or change the task. *)
Theorem description_script_last_assignment cs t value :
  (Forall (λ c, "description" ∉ assigned c) cs →
   description (session cs (after (SetDescription value) t))
     = (Ok (VStr value), session cs (after (SetDescription value) t))) ∧
  (Forall (λ c, "script" ∉ assigned c) cs →
   script (session cs (after (SetScript value) t))
     = (Ok (VStr value), session cs (after (SetScript value) t))).
Proof.
  split; intros Hall.
  - destruct (session_unassigned cs (after (SetDescription value) t) "description" Hall)
      as [Hobj _].
    unfold description. run_M. rewrite Hobj. unfold after. cbn [run_call].
    rewrite description_setter_run. cbn [snd obj]. by rewrite lookup_insert_eq.
  - destruct (session_unassigned cs (after (SetScript value) t) "script" Hall)
      as [Hobj _].
    unfold script. run_M. rewrite Hobj. unfold after. cbn [run_call].
    rewrite script_setter_run. cbn [snd obj]. by rewrite lookup_insert_eq.
Qed.

(** ** Getters against setters *)

Lemma param_run t :
  param t =
    (Ok (match obj t !! "param" with
         | Some v => if Py.is_None v then "" else yaml_dump v
         | None => ""
         end), t).
Proof.
  unfold param. run_M. destruct (obj t !! "param") as [v|]; simpl; [|done].
  by destruct (Py.is_None v).
Qed.

Lemma paramschema_run t :
  paramschema t =
    (Ok (match obj t !! "paramschema" with
         | Some v => if Py.is_None v then "" else yaml_dump v
         | None => ""
         end), t).
Proof.
  unfold paramschema. run_M. destruct (obj t !! "paramschema") as [v|]; simpl; [|done].
  by destruct (Py.is_None v).
Qed.

(** X7: assigning to [param] (or [paramschema]) the text its getter returned
    stores the same value again and marks the field dirty, when the task
    holds a value other than [None] that the validator accepts and that
    [yaml.load] reads back from its dump: [obj] is unchanged, only the dirty
    marker is new. *)
Theorem param_round_trip t :
  (∀ p, obj t !! "param" = Some p → Py.is_None p = false →
     _validate_param p = Ok tt → yaml_load (yaml_dump p) = Ok p →
     ∃ text, param t = (Ok text, t) ∧
       param_setter text t
         = (Ok tt, mkTask (obj t) (<["param" := true]> (changed t)) (dir_files t))) ∧
  (∀ p, obj t !! "paramschema" = Some p → Py.is_None p = false →
     _validate_paramschema p = Ok tt → yaml_load (yaml_dump p) = Ok p →
     ∃ text, paramschema t = (Ok text, t) ∧
       paramschema_setter text t
         = (Ok tt, mkTask (obj t) (<["paramschema" := true]> (changed t))
                          (dir_files t))).
Proof.
  split; intros p Hp Hnone Hvalid Hcodec; exists (yaml_dump p).
  - rewrite param_run, Hp, Hnone. split; [done|].
    rewrite param_setter_run, Hcodec, Hvalid. by rewrite insert_id.
  - rewrite paramschema_run, Hp, Hnone. split; [done|].
    rewrite paramschema_setter_run, Hcodec, Hvalid. by rewrite insert_id.
Qed.

(** X8: what a document that loads as [None] (an empty file) does to each
    setter.  [meta] raises [AttributeError] and [files] raises [TypeError],
    both leaving the task as it was; [param] and [paramschema] accept it,
    store [None] and mark the field dirty, so that the patch of a reachable
    task then carries [param: None]. *)
Theorem setters_on_empty_document fs text files_path t :
  yaml_load text = Ok VNone →
  meta_setter text t = (Raise AttributeError, t) ∧
  files_setter fs (text, files_path) t = (Raise TypeError, t) ∧
  param_setter text t
    = (Ok tt, mkTask (<["param" := VNone]> (obj t))
                     (<["param" := true]> (changed t)) (dir_files t)) ∧
  paramschema_setter text t
    = (Ok tt, mkTask (<["paramschema" := VNone]> (obj t))
                     (<["paramschema" := true]> (changed t)) (dir_files t)) ∧
  (reachable t →
   ∃ data, serialize_as_task (after (SetParam text) t)
             = (Ok data, after (SetParam text) t) ∧
           data !! "param" = Some VNone).
Proof.
  intros Hload.
  split; [by rewrite meta_setter_run, Hload|].
  split; [by rewrite files_setter_run, Hload|].
  split; [by rewrite param_setter_run, Hload|].
  split; [by rewrite paramschema_setter_run, Hload|].
  intros Hr.
  pose proof (reachable_inv _ (reachable_call (SetParam text) t Hr)) as Hinv.
  destruct (serialize_as_task_inv _ Hinv) as (data & Hrun & Hk).
  exists data. split; [exact Hrun|].
  assert (after (SetParam text) t
          = mkTask (<["param" := VNone]> (obj t))
                   (<["param" := true]> (changed t)) (dir_files t)) as Hafter.
  { unfold after. cbn [run_call]. by rewrite param_setter_run, Hload. }
  destruct (Hk "param") as [_ Hdirty]. destruct Hdirty as (v & Hv & ->).
  - rewrite Hafter. unfold dirty. cbn [changed]. by rewrite lookup_insert_eq.
  - rewrite Hafter in Hv. cbn [obj] in Hv. by rewrite lookup_insert_eq in Hv.
Qed.



(** ** The listing of the fileset *)





Lemma files_loop_entry_over fs oldfiles files_path file x y :
  files_loop fs oldfiles files_path ([], []) file = Ok (x, y) →
  ∃ e, x = [e] ∧ entry_over file e.
Proof.
  intros (d & n & path & st & olds & matched & Hres & _ & Hfilter & Hcase)%files_loop_round.
  pose proof Hres as (-> & Hv & _).
  destruct Hcase as [(m & ms & e & -> & Hupd & -> & _)|(e & _ & Hmint & -> & _)].
  - apply attributes_update_inv in Hupd as (od & dd & a & -> & Hd & Hda & ->).
    eexists. split; [done|]. exists d, a. split; [done|]. split; [done|].
    apply (attributes_run _ (<["attributes" := VDict (d ∪ a)]> dd));
      by rewrite lookup_insert_eq.
  - rewrite minted_run in Hmint. injection Hmint as <-.
    eexists. split; [done|].
    exists d, (fresh_attributes (sha256_hexdigest (f_bytes st)) st). done.
Qed.

Lemma for_each_files_loop_entries_over fs oldfiles files_path l nf nd :
  for_each (files_loop fs oldfiles files_path) l ([], []) = Ok (nf, nd) →
  Forall2 entry_over l nf.
Proof.
  revert nf nd. induction l as [|file l IH]; intros nf nd; cbn [for_each].
  - intros [= <- <-]. constructor.
  - destruct (files_loop fs oldfiles files_path ([], []) file) as [[x y]|] eqn:Hx;
      cbn [mbind result_bind]; [|done].
    rewrite for_each_files_loop_shift.
    destruct (for_each _ l ([], [])) as [[nf' nd']|] eqn:Hl;
      cbn [mbind result_bind fst snd]; [|done].
    intros [= <- <-]. apply files_loop_entry_over in Hx as (e & -> & He).
    constructor; [done|]. by eapply IH.
Qed.




(** X12: the [files] getter of a task without a fileset.  When [obj] has no
    key [files] it returns the empty text and no path; when [obj] holds
    [None] under [files] the listing is guarded but the paths are not, and
    the getter raises [TypeError]. *)
Theorem files_getter_without_fileset t :
  (obj t !! "files" = None → files t = (Ok ("", []), t)) ∧
  (obj t !! "files" = Some VNone → files t = (Raise TypeError, t)).
Proof.
  split; intros Hf; unfold files; run_M; rewrite Hf; reflexivity.
Qed.

(** ** The uploads that follow a patch *)

Lemma acknowledges_attributes hash filename f :
  acknowledges hash filename f =
    (a ← attributes f;
     h ← Py.getitem a "hashSHA256";
     if Py.eq h hash then n ← Py.getitem a "name"; Ok (Py.eq n filename)
     else Ok false).
Proof.
  unfold acknowledges, attributes.
  destruct (Py.getitem f "data") as [d|]; cbn [mbind result_bind]; [|done].
  destruct (Py.getitem d "attributes") as [a|]; cbn [mbind result_bind]; done.
Qed.

Lemma acknowledges_true f a n h :
  attributes f = Ok (VDict a) → a !! "name" = Some (VStr n) →
  a !! "hashSHA256" = Some (VStr h) →
  acknowledges (VStr h) (VStr n) f = Ok true.
Proof.
  intros Ha Hn Hh. rewrite acknowledges_attributes, Ha. simpl.
  rewrite Hh. simpl. rewrite bool_decide_eq_true_2 by done.
  rewrite Hn. simpl. by rewrite bool_decide_eq_true_2.
Qed.

Lemma filter_r_first_total {A} (p : A → result bool) l1 x l2 :
  Forall (λ y, p y = Ok false) l1 → p x = Ok true →
  Forall (λ y, ∃ b, p y = Ok b) l2 →
  ∃ ms, filter_r p (l1 ++ x :: l2)%list = Ok (x :: ms).
Proof.
  intros Hl1 Hx Hl2.
  destruct (filter_r_total p (l1 ++ x :: l2)%list) as (matched & Hfilter & _).
  { apply Forall_app. split.
    - eapply Forall_impl; [exact Hl1|]. intros y Hy. by exists false.
    - constructor; [by exists true|done]. }
  destruct (filter_r_first _ _ _ _ _ Hl1 Hx Hfilter) as [ms ->]. eauto.
Qed.

Lemma upload_prepare_response fs respjson n h path :
  upload_prepare fs respjson (transfer n h path) =
    (l ← response_files respjson;
     files ← filter_r (acknowledges (VStr h) (VStr n)) l;
     raise_if (bool_decide (length files = 0)) OSError;;
     f ← fs_open fs path;
     f0 ← first files;
     url ← upload_link f0;
     Ok (url, f_bytes f)).
Proof.
  unfold upload_prepare, response_files, upload_link, transfer, unpack3.
  cbn [Py.iter mbind result_bind].
  destruct (Py.getitem respjson "data") as [d|]; cbn [mbind result_bind]; [|done].
  destruct (Py.getitem d "attributes") as [a|]; cbn [mbind result_bind]; [|done].
  destruct (Py.getitem a "files") as [fl|]; cbn [mbind result_bind]; [|done].
  destruct (Py.iter fl) as [l|]; cbn [mbind result_bind]; [|done].
  destruct (filter_r _ l) as [files|]; cbn [mbind result_bind]; [|done].
  destruct (raise_if _ _); cbn [mbind result_bind open_value]; [|done].
  destruct (fs_open fs path) as [f|]; cbn [mbind result_bind]; [|done].
  destruct (first files) as [f0|]; cbn [mbind result_bind]; [|done].
  destruct (Py.getitem f0 "links") as [links|]; cbn [mbind result_bind]; done.
Qed.

Lemma upload_prepare_uploaded fs http_put respjson item put :
  uploaded fs http_put respjson item put →
  upload_prepare fs respjson item = Ok put ∧ http_put put.1 put.2 = Ok tt.
Proof.
  intros (n & h & path & st & -> & Hack & Hfs & Hbytes & Hput).
  split; [|done].
  destruct Hack as (pre & e & post & Hresp & Hpre & He & Hpost & Hlink).
  destruct (filter_r_first_total _ _ _ _ Hpre He Hpost) as [ms Hfilter].
  rewrite upload_prepare_response, Hresp. cbn [mbind result_bind].
  rewrite Hfilter. cbn [mbind result_bind raise_if length bool_decide first].
  unfold fs_open. rewrite Hfs. cbn [mbind result_bind first].
  rewrite Hlink. cbn [mbind result_bind]. rewrite <- Hbytes. by destruct put.
Qed.

Lemma upload_loop_uploaded fs http_put respjson items puts acc :
  Forall2 (uploaded fs http_put respjson) items puts →
  ∀ rest,
    upload_loop fs http_put respjson (items ++ rest)%list acc
    = upload_loop fs http_put respjson rest (acc ++ puts)%list.
Proof.
  intros Hall. revert acc.
  induction Hall as [|item put items puts Hup _ IH]; intros acc rest.
  - by rewrite app_nil_r.
  - apply upload_prepare_uploaded in Hup as [Hprep Hput].
    cbn [app upload_loop]. rewrite Hprep. destruct put as [url content].
    cbn [fst snd] in Hput. rewrite Hput. rewrite IH. by rewrite <- app_assoc.
Qed.

Lemma acknowledges_holds n h f :
  acknowledges (VStr h) (VStr n) f = Ok true ↔ holds f n h.
Proof.
  split.
  - rewrite acknowledges_attributes. unfold holds.
    destruct (attributes f) as [av|]; cbn [mbind result_bind]; [|done].
    destruct av as [| | | | | | |a]; simpl; try done.
    destruct (a !! "hashSHA256") as [hv|] eqn:Hh; simpl; [|done].
    destruct (Py.eq hv (VStr h)) eqn:Heq; [|done].
    apply Py_eq_true in Heq as (s & -> & [= <-]).
    destruct (a !! "name") as [nv|] eqn:Hn; simpl; [|done].
    intros [= Heq]. apply Py_eq_true in Heq as (s' & -> & [= <-]).
    by exists a.
  - intros (a & Ha & Hn & Hh). by eapply acknowledges_true.
Qed.

Lemma acknowledges_total hash filename f :
  comparable f → ∃ b, acknowledges hash filename f = Ok b.
Proof.
  intros (a & Ha & [nv Hn] & [hv Hh]). rewrite acknowledges_attributes, Ha. simpl.
  rewrite Hh. simpl. destruct (Py.eq hv hash); [|eauto].
  rewrite Hn. simpl. eauto.
Qed.

Lemma sent_uploaded fs http_put respjson rfiles item put :
  response_files respjson = Ok rfiles → Forall comparable rfiles →
  sent fs http_put rfiles item put → uploaded fs http_put respjson item put.
Proof.
  intros Hresp Hcomp
    (n & h & path & st & pre & e & post & -> & -> & Hnot & Hhas & Hlink & Hfs
     & Hbytes & Hput).
  exists n, h, path, st. split; [done|]. split; [|done].
  exists pre, e, post. split; [done|].
  apply Forall_app in Hcomp as [Hpre Hpost].
  apply Forall_cons in Hpost as [_ Hpost].
  split; [|split; [by apply acknowledges_holds|split; [|done]]].
  - rewrite Forall_forall in Hpre, Hnot. apply Forall_forall. intros f Hin.
    destruct (acknowledges_total (VStr h) (VStr n) f (Hpre f Hin)) as [[] Hb];
      [|done].
    exfalso. by apply (Hnot f Hin), acknowledges_holds.
  - eapply Forall_impl; [exact Hpost|]. intros f. apply acknowledges_total.
Qed.

(** X13: let the response list entries that all have a name and a digest,
    and let every pending transfer have, among them, an entry with its name
    and its digest, the first of which has an upload link; let the local
    file of every transfer open and every request succeed.  Then the loop
    of [_patch] issues exactly one request per transfer, in the order of
    the transfers, each to the upload link of the first response entry that
    holds the transfer's name and digest, with the bytes of the local file,
    and returns. *)
Theorem _patch_uploads_acknowledged fs http_put respjson rfiles items puts :
  response_files respjson = Ok rfiles →
  Forall comparable rfiles →
  Forall2 (sent fs http_put rfiles) items puts →
  _patch_uploads fs http_put respjson (VList items) = (Ok tt, puts).
Proof.
  intros Hresp Hcomp Hall. unfold _patch_uploads. cbn [Py.iter].
  assert (Hup : Forall2 (uploaded fs http_put respjson) items puts).
  { eapply Forall2_impl; [exact Hall|]. intros item put.
    by apply sent_uploaded. }
  pose proof (upload_loop_uploaded _ _ _ _ _ [] Hup []) as Hloop.
  rewrite app_nil_r in Hloop. by rewrite Hloop.
Qed.

(** X14: a pending transfer that no entry of the response holds by digest
    and name makes the loop of [_patch] raise [IOError] (an [OSError]).  The
    requests for the transfers before it have been issued and stay issued;
    the file of the transfer is not opened and no request is issued for it
    or for the transfers after it. *)
Theorem _patch_uploads_unacknowledged fs http_put respjson pre puts n h path post :
  Forall2 (uploaded fs http_put respjson) pre puts →
  unacknowledged respjson n h →
  _patch_uploads fs http_put respjson (VList (pre ++ transfer n h path :: post))
  = (Raise OSError, puts).
Proof.
  intros Hall (rfiles & Hresp & Hnone). unfold _patch_uploads. cbn [Py.iter].
  rewrite (upload_loop_uploaded _ _ _ _ _ [] Hall). cbn [app upload_loop].
  rewrite upload_prepare_response, Hresp. cbn [mbind result_bind].
  by rewrite (filter_r_none _ _ Hnone).
Qed.

Lemma files_loop_backed fs oldfiles files_path file x y :
  files_loop fs oldfiles files_path ([], []) file = Ok (x, y) →
  Py.contains "hashSHA256" file = Ok false →
  ∃ e, x = [e] ∧ Forall (backed fs e) y.
Proof.
  intros (d & n & path & st & olds & matched & Hres & _ & Hfilter & Hcase)%files_loop_round
    Hkey.
  pose proof Hres as (-> & _ & Hn & _ & Hfs).
  destruct Hcase as [(m & ms & e & -> & Hupd & -> & ->)|(e & _ & Hmint & -> & ->)].
  - exists e. split; [done|constructor].
  - rewrite minted_run in Hmint. injection Hmint as <-.
    eexists. split; [done|]. constructor; [|constructor].
    assert (d !! "hashSHA256" = None) as Hd.
    { simpl in Hkey. injection Hkey as Hkey. apply bool_decide_eq_false in Hkey.
      destruct (d !! "hashSHA256"); [|done]. exfalso. apply Hkey. eauto. }
    assert ((d ∪ fresh_attributes (sha256_hexdigest (f_bytes st)) st) !! "name"
            = Some (VStr n)) as Hname by (by apply lookup_union_Some_l).
    assert ((d ∪ fresh_attributes (sha256_hexdigest (f_bytes st)) st) !! "hashSHA256"
            = Some (VStr (sha256_hexdigest (f_bytes st)))) as Hhash
      by (by rewrite lookup_union_r).
    exists n, path, st, (d ∪ fresh_attributes (sha256_hexdigest (f_bytes st)) st).
    split; [done|]. split; [done|]. split; [done|]. split; [done|]. split; [done|].
    by eapply acknowledges_true.
Qed.

Lemma for_each_files_loop_backed fs oldfiles files_path l nf nd :
  for_each (files_loop fs oldfiles files_path) l ([], []) = Ok (nf, nd) →
  Forall (λ file, Py.contains "hashSHA256" file = Ok false) l →
  Forall (λ tr, ∃ e, e ∈ nf ∧ backed fs e tr) nd.
Proof.
  revert nf nd. induction l as [|file l IH]; intros nf nd; cbn [for_each].
  - intros [= <- <-] _. constructor.
  - destruct (files_loop fs oldfiles files_path ([], []) file) as [[x y]|] eqn:Hx;
      cbn [mbind result_bind]; [|done].
    rewrite for_each_files_loop_shift.
    destruct (for_each _ l ([], [])) as [[nf' nd']|] eqn:Hl;
      cbn [mbind result_bind fst snd]; [|done].
    intros [= <- <-] [Hkey Hkeys]%Forall_cons.
    apply files_loop_backed in Hx as (e & -> & Hy); [|done].
    apply Forall_app. split.
    + eapply Forall_impl; [exact Hy|]. intros tr Htr. exists e. split; [by left|done].
    + eapply Forall_impl; [by eapply IH|]. intros tr (e' & Hin & Htr).
      exists e'. split; [by right|done].
Qed.

(** X15: every transfer a replacement leaves pending is backed by the new
    fileset, provided no descriptor carries a key ['hashSHA256'].  Each
    pending tuple names a local file that was read and an entry of the new
    fileset that holds the tuple's name and digest, so a response that
    lists the patched fileset acknowledges it in the comparison of
    [_patch]. *)
Theorem files_setter_transfers_backed fs files_yaml files_path t t'
    loaded descriptors :
  files_setter fs (files_yaml, files_path) t = (Ok tt, t') →
  yaml_load files_yaml = Ok loaded →
  Py.iter loaded = Ok descriptors →
  Forall (λ file, Py.contains "hashSHA256" file = Ok false) descriptors →
  ∃ nf nd,
    obj t' !! "files" = Some (VList nf) ∧
    get_data_files t' = (Ok (VList nd), t') ∧
    Forall (λ tr, ∃ e, e ∈ nf ∧ backed fs e tr) nd.
Proof.
  intros Hset Hload Hiter Hkeys.
  apply files_setter_ok in Hset
    as (loaded' & descriptors' & nf & nd & Hload' & Hiter' & Hloop & ->).
  assert (loaded' = loaded) as -> by congruence.
  assert (descriptors' = descriptors) as -> by congruence.
  exists nf, nd. cbn [obj]. split; [apply files_setter_lookup_files|].
  split.
  - rewrite get_data_files_run. cbn [obj]. by rewrite files_setter_lookup_files_data.
  - by eapply for_each_files_loop_backed.
Qed.

(** ** The scratch directory and omitted files *)

Lemma session_dir_files cs t : dir_files (session cs t) = dir_files t.
Proof.
  revert t. induction cs as [|c cs IH]; intros t; [done|].
  rewrite session_cons, IH. apply after_dir_files.
Qed.

(** X16: no call touches the scratch directory, and [destroy] removes it
    once.  After any session of a task loaded with the scratch directory
    [d], [destroy] calls [rmtree] on [d] and, when that returns, forgets the
    directory, so that a second [destroy] calls nothing; when [rmtree]
    raises, the directory is kept for a later call.  A task loaded without
    files has no directory and [destroy] calls nothing. *)
Theorem destroy_after_session rmtree cs o d removed :
  d ≠ "" →
  (rmtree d = Ok tt →
   destroy rmtree (session cs (Task_init o (Some d)), removed)
     = (Ok tt, (mkTask (obj (session cs (Task_init o (Some d))))
                       (changed (session cs (Task_init o (Some d)))) None,
                (removed ++ [d])%list)) ∧
   destroy rmtree (mkTask (obj (session cs (Task_init o (Some d))))
                          (changed (session cs (Task_init o (Some d)))) None,
                   (removed ++ [d])%list)
     = (Ok tt, (mkTask (obj (session cs (Task_init o (Some d))))
                       (changed (session cs (Task_init o (Some d)))) None,
                (removed ++ [d])%list))) ∧
  (∀ e, rmtree d = Raise e →
   destroy rmtree (session cs (Task_init o (Some d)), removed)
     = (Raise e, (session cs (Task_init o (Some d)), (removed ++ [d])%list))) ∧
  destroy rmtree (session cs (Task_init o None), removed)
    = (Ok tt, (session cs (Task_init o None), removed)).
Proof.
  intros Hd.
  assert (dir_files (session cs (Task_init o (Some d))) = Some d) as Hdir
    by (by rewrite session_dir_files).
  assert (dir_files (session cs (Task_init o None)) = None) as Hnone
    by (by rewrite session_dir_files).
  split; [|split].
  - intros Hrm. split; [|done].
    unfold destroy. rewrite Hdir, bool_decide_eq_false_2 by done.
    destruct (rmtree d) as [[]|]; [done|congruence].
  - intros e Hrm. unfold destroy. rewrite Hdir, bool_decide_eq_false_2 by done.
    by rewrite Hrm.
  - unfold destroy. by rewrite Hnone.
Qed.

(** X17: a replacement keeps no file that the descriptors omit.  The new
    fileset has as many entries as there are descriptors, and the name of
    each entry is the name of one of the descriptors: a previous entry whose
    name no descriptor gives is gone, and an empty list of descriptors
    leaves an empty fileset. *)
Theorem files_setter_drops_omitted fs files_yaml files_path t t' loaded descriptors :
  files_setter fs (files_yaml, files_path) t = (Ok tt, t') →
  yaml_load files_yaml = Ok loaded →
  Py.iter loaded = Ok descriptors →
  ∃ nf,
    obj t' !! "files" = Some (VList nf) ∧
    length nf = length descriptors ∧
    ∀ e, e ∈ nf →
      ∃ file nm a,
        file ∈ descriptors ∧ Py.getitem file "name" = Ok nm ∧
        attributes e = Ok (VDict a) ∧ a !! "name" = Some nm.
Proof.
  intros Hset Hload Hiter.
  apply files_setter_ok in Hset
    as (loaded' & descriptors' & nf & nd & Hload' & Hiter' & Hloop & ->).
  assert (loaded' = loaded) as -> by congruence.
  assert (descriptors' = descriptors) as -> by congruence.
  apply for_each_files_loop_entries_over in Hloop.
  exists nf. cbn [obj]. split; [apply files_setter_lookup_files|].
  split; [symmetry; by eapply Forall2_length|].
  intros e He.
  apply list_elem_of_lookup in He as [i Hi].
  destruct (Forall2_lookup_r _ _ _ _ _ Hloop Hi) as (file & Hfile & Hover).
  destruct Hover as (d & x & -> & Hv & Ha).
  destruct (_validate_file_ok_inv _ Hv) as (d' & n & _ & _ & _ & [= <-] & Hn & _).
  exists (VDict d), (VStr n), (d ∪ x).
  split; [by eapply list_elem_of_lookup_2|].
  split; [by simpl; rewrite Hn|].
  split; [done|]. by apply lookup_union_Some_l.
Qed.

(** ** The export of the files from the command line *)

Lemma no_IndexError_bind {A B} (m : result A) (f : A → result B) :
  no_IndexError m → (∀ a, m = Ok a → no_IndexError (f a)) →
  no_IndexError (m ≫= f).
Proof.
  unfold no_IndexError. intros Hm Hf. destruct m as [a|e]; simpl.
  - exact (Hf a eq_refl).
  - intros [= ->]. by apply Hm.
Qed.

Lemma no_IndexError_getitem v k : no_IndexError (Py.getitem v k).
Proof.
  unfold no_IndexError. destruct v; simpl; try done.
  by destruct (_ !! k).
Qed.

Lemma no_IndexError_contains v k : no_IndexError (Py.contains k v).
Proof. unfold no_IndexError. by destruct v. Qed.

Lemma no_IndexError_iter v : no_IndexError (Py.iter v).
Proof. unfold no_IndexError. by destruct v. Qed.

Lemma no_IndexError_update a b : no_IndexError (Py.update a b).
Proof. unfold no_IndexError. by destruct a, b. Qed.

Lemma no_IndexError_get v k dflt : no_IndexError (Py.get v k dflt).
Proof. unfold no_IndexError. by destruct v. Qed.

Lemma no_IndexError_raise_if c e : e ≠ IndexError → no_IndexError (raise_if c e).
Proof. unfold no_IndexError. destruct c; simpl; congruence. Qed.

Lemma no_IndexError_fs_open fs path : no_IndexError (fs_open fs path).
Proof. unfold no_IndexError, fs_open. by destruct (fs path). Qed.

Lemma no_IndexError_for_each {A S} (body : S → A → result S) l s :
  (∀ s x, x ∈ l → no_IndexError (body s x)) →
  no_IndexError (for_each body l s).
Proof.
  revert s. induction l as [|x l IH]; intros s Hbody; simpl.
  - done.
  - apply no_IndexError_bind.
    + apply Hbody. by left.
    + intros s' _. apply IH. intros s0 y Hy. apply Hbody. by right.
Qed.

Lemma no_IndexError_filter_r {A} (p : A → result bool) l :
  (∀ x, no_IndexError (p x)) → no_IndexError (filter_r p l).
Proof.
  intros Hp. induction l as [|x l IH]; simpl; [done|].
  apply no_IndexError_bind; [apply Hp|]. intros b _.
  apply no_IndexError_bind; [apply IH|]. by intros r _.
Qed.

Ltac no_IndexError_step :=
  first
    [ apply no_IndexError_getitem | apply no_IndexError_contains
    | apply no_IndexError_iter | apply no_IndexError_update
    | apply no_IndexError_get | apply no_IndexError_fs_open
    | apply no_IndexError_raise_if; discriminate
    | apply no_IndexError_bind; [|intros ? ?] ].

Lemma no_IndexError__validate_file file : no_IndexError (_validate_file file).
Proof. unfold _validate_file. repeat no_IndexError_step. Qed.

Lemma no_IndexError_old_matches name hash f :
  no_IndexError (old_matches name hash f).
Proof.
  unfold old_matches. repeat no_IndexError_step.
  destruct (Py.eq _ _); [|done]. repeat no_IndexError_step. done.
Qed.

Lemma no_IndexError_attributes_update newfile file :
  no_IndexError (attributes_update newfile file).
Proof.
  unfold attributes_update. repeat no_IndexError_step.
  by destruct newfile; try done; destruct a.
Qed.

Lemma no_IndexError_minted hash st file : no_IndexError (minted hash st file).
Proof. unfold minted. repeat no_IndexError_step. done. Qed.

Lemma located_listed files_path dir n :
  (dir, n) ∈ files_path → ∃ path rest, located files_path (VStr n) = path :: rest.
Proof.
  intros Hin. unfold located.
  assert (Hf : (dir, n) ∈ filter (λ df : string * string,
                                     Py.eq (VStr df.2) (VStr n) = true) files_path).
  { apply list_elem_of_filter. split; [apply Py_eq_refl|done]. }
  destruct (filter _ files_path) as [|x rest] eqn:E.
  - by apply elem_of_nil in Hf.
  - simpl. eauto.
Qed.

(** A round of the loop of the setter does not raise [IndexError] when the
    name of its descriptor is listed in [files_path]. *)
Lemma no_IndexError_files_loop fs oldfiles files_path acc file :
  (∀ n, Py.getitem file "name" = Ok (VStr n) → ∃ dir, (dir, n) ∈ files_path) →
  no_IndexError (files_loop fs oldfiles files_path acc file).
Proof.
  intros Hlisted. unfold files_loop. destruct acc as [nf nd].
  apply no_IndexError_bind; [apply no_IndexError__validate_file|].
  intros u Hvalid.
  destruct (_validate_file_dict _ _ Hvalid) as (d & n & -> & Hn).
  apply no_IndexError_bind; [apply no_IndexError_getitem|].
  intros name Hname.
  assert (name = VStr n) as ->.
  { simpl in Hname. rewrite Hn in Hname. congruence. }
  destruct (Hlisted n Hname) as [dir Hdir].
  destruct (located_listed _ _ _ Hdir) as (path & rest & ->).
  apply no_IndexError_bind; [done|]. intros filepath _.
  repeat no_IndexError_step.
  - apply no_IndexError_filter_r. intros x. apply no_IndexError_old_matches.
  - destruct a1 as [|m ms]; cbn -[minted attributes_update].
    + apply no_IndexError_bind; [apply no_IndexError_minted|]. by intros ? _.
    + apply no_IndexError_bind; [apply no_IndexError_attributes_update|].
      by intros ? _.
Qed.

(** What the loop of [process_files_export] has collected when it returns:
    every descriptor has a [str] name, listed under [src_dir]. *)
Lemma collect_path_listed exists_ src_dir l acc files_path :
  for_each (collect_path exists_ src_dir) l acc = Ok files_path →
  (∀ p, p ∈ acc → p ∈ files_path) ∧
  ∀ file, file ∈ l →
    ∃ n, Py.getitem file "name" = Ok (VStr n) ∧
         exists_ (Py.os_path_join src_dir n) = true ∧
         (src_dir, n) ∈ files_path.
Proof.
  revert acc. induction l as [|x l IH]; intros acc Hrun; simpl in Hrun.
  - injection Hrun as <-. split; [done|]. intros file Hin.
    by apply elem_of_nil in Hin.
  - destruct (collect_path exists_ src_dir acc x) as [acc'|e] eqn:Hx;
      [|discriminate]. simpl in Hrun.
    destruct (IH _ Hrun) as [Hkeep Hall].
    unfold collect_path in Hx.
    destruct (Py.getitem x "name") as [name|e] eqn:Hname; [|discriminate].
    simpl in Hx. destruct name; try discriminate.
    destruct (exists_ (Py.os_path_join src_dir s)) eqn:Hex; [|discriminate].
    simpl in Hx. injection Hx as <-.
    split.
    + intros p Hp. apply Hkeep. apply elem_of_app. by left.
    + intros file Hin. apply elem_of_cons in Hin as [->|Hin].
      * exists s. split; [done|]. split; [done|].
        apply Hkeep. apply elem_of_app. right. by apply list_elem_of_singleton.
      * by apply Hall.
Qed.

Lemma no_IndexError_collect_path exists_ src_dir acc file :
  no_IndexError (collect_path exists_ src_dir acc file).
Proof.
  unfold collect_path. apply no_IndexError_bind; [apply no_IndexError_getitem|].
  intros name _. destruct name; try done.
  apply no_IndexError_bind; [apply no_IndexError_raise_if; discriminate|].
  by intros ? _.
Qed.

(** The assignment at the end of [process_files_export] does not raise
    [IndexError]: every name the loop of the setter looks up was listed by
    the loop before. *)
Lemma files_setter_listed fs exists_ src_dir files_yaml loaded l files_path t :
  yaml_load files_yaml = Ok loaded →
  Py.iter loaded = Ok l →
  for_each (collect_path exists_ src_dir) l [] = Ok files_path →
  no_IndexError (files_setter fs (files_yaml, files_path) t).1.
Proof.
  intros Hload Hiter Hcollect. rewrite files_setter_run, Hload, Hiter.
  destruct (collect_path_listed _ _ _ _ _ Hcollect) as [_ Hall].
  assert (Hloop : no_IndexError
            (for_each (files_loop fs (default (VList []) (obj t !! "files"))
                         files_path) l ([], []))).
  { apply no_IndexError_for_each. intros acc file Hin.
    apply no_IndexError_files_loop. intros n Hn.
    destruct (Hall file Hin) as (n' & Hn' & _ & Hlisted).
    exists src_dir. congruence. }
  destruct (for_each (files_loop _ _ _) l _) as [[nf nd]|e]; [done|].
  unfold no_IndexError in *. simpl. intros [= ->]. by apply Hloop.
Qed.

(** X18: [process_files_export] without [--dry-run] never raises
    [IndexError] (as long as reading the listing and [yaml.load] do not): a
    name with no file under the source directory is rejected by the loop of
    the command with [ValueError] before the setter looks it up.  Whatever
    it raises, the task is left as it was. *)
Theorem process_files_export_no_IndexError read_text exists_ report fs args
    t e t' :
  (∀ path, no_IndexError (read_text path)) →
  (∀ text, no_IndexError (yaml_load text)) →
  args_dry_run args = false →
  process_files_export read_text exists_ report fs args t = (Raise e, t') →
  e ≠ IndexError ∧ t' = t.
Proof.
  intros Hread Hload Hdry. unfold process_files_export.
  destruct (match args_files args with
            | Some f => Some (Py.os_path_join (args_base_dir args) f)
            | None => if args_all args
                      then Some (Py.os_path_join (args_base_dir args) DEFAULT_FILES)
                      else None
            end) as [src_dir|]; [|by intros [=]].
  rewrite Hdry. unfold mbind, M_bind, lift, mret, M_ret. cbn beta iota.
  destruct (read_text _) as [files_yaml|e0] eqn:Hr.
  2: { intros [= <- <-]. split; [|done]. intros ->. exact (Hread _ Hr). }
  destruct (yaml_load files_yaml) as [loaded|e0] eqn:Hl.
  2: { intros [= <- <-]. split; [|done]. intros ->. exact (Hload _ Hl). }
  destruct (Py.iter loaded) as [l|e0] eqn:Hi.
  2: { intros [= <- <-]. split; [|done]. intros ->.
       exact (no_IndexError_iter _ Hi). }
  destruct (for_each (collect_path exists_ src_dir) l []) as [files_path|e0]
    eqn:Hc.
  2: { intros [= <- <-]. split; [|done]. intros ->.
       refine (no_IndexError_for_each (collect_path exists_ src_dir) l [] _ Hc).
       intros acc file _. apply no_IndexError_collect_path. }
  intros Hset.
  pose proof (files_setter_listed fs _ _ _ _ _ _ t Hl Hi Hc) as Hno.
  split.
  - intros ->. apply Hno. by rewrite Hset.
  - by apply (files_setter_raise fs (files_yaml, files_path) t e).
Qed.

(** X19: what the loop of [process_files_export] rejects before the setter
    runs.  After descriptors that pass, a mapping without [name] raises
    [KeyError] (not the [ValueError] of [_validate_file]), a name that is
    not a [str] raises [TypeError], and a name with no file under the
    source directory raises [ValueError]; in each case the task is left as
    it was. *)
Theorem process_files_export_rejects read_text exists_ report fs base dir dry
    files_yaml pre file post t :
  read_text (Py.os_path_join (Py.os_path_join base dir) ".files.yml")
    = Ok files_yaml →
  yaml_load files_yaml = Ok (VList (pre ++ file :: post)) →
  Forall (λ f, ∃ n, Py.getitem f "name" = Ok (VStr n) ∧
                    exists_ (Py.os_path_join (Py.os_path_join base dir) n)
                      = true) pre →
  (∀ d, file = VDict d → d !! "name" = None →
     process_files_export read_text exists_ report fs
       (mkArgs (Some dir) false base dry) t
     = (Raise (KeyError "name"), t)) ∧
  (∀ v, Py.getitem file "name" = Ok v → Py.isinstance_str v = false →
     process_files_export read_text exists_ report fs
       (mkArgs (Some dir) false base dry) t
     = (Raise TypeError, t)) ∧
  (∀ n, Py.getitem file "name" = Ok (VStr n) →
     exists_ (Py.os_path_join (Py.os_path_join base dir) n) = false →
     process_files_export read_text exists_ report fs
       (mkArgs (Some dir) false base dry) t
     = (Raise (ValueError "File not found"), t)).
Proof.
  set (src_dir := Py.os_path_join base dir).
  set (run := process_files_export read_text exists_ report fs
                (mkArgs (Some dir) false base dry) t).
  intros Hread Hload Hpre.
  assert (Hrun : ∀ e,
    (∀ acc, collect_path exists_ src_dir acc file = Raise e) →
    run = (Raise e, t)).
  { intros e Hfile. unfold run, process_files_export.
    cbn [args_files args_all args_base_dir args_dry_run].
    fold src_dir. unfold mbind at 1 2 3 4, M_bind, lift. cbn beta iota.
    rewrite Hread, Hload. cbn [Py.iter].
    rewrite for_each_app.
    assert (Hgo : ∀ acc, ∃ acc',
      for_each (collect_path exists_ src_dir) pre acc = Ok acc').
    { clear -Hpre. induction Hpre as [|f pre (n & Hn & Hex) _ IH]; intros acc.
      - by exists acc.
      - assert (Hf : collect_path exists_ src_dir acc f
                     = Ok (acc ++ [(src_dir, n)])%list).
        { unfold collect_path. rewrite Hn. simpl. by rewrite Hex. }
        cbn [for_each]. rewrite Hf. apply IH. }
    destruct (Hgo []) as [acc' ->]. cbn [for_each mbind result_bind].
    change (for_each (collect_path exists_ src_dir) (file :: post) acc')
      with (collect_path exists_ src_dir acc' file ≫=
              for_each (collect_path exists_ src_dir) post).
    by rewrite Hfile. }
  split; [|split].
  - intros d -> Hd. apply Hrun. intros acc. unfold collect_path. simpl.
    by rewrite Hd.
  - intros v Hv Hstr. apply Hrun. intros acc. unfold collect_path.
    rewrite Hv. simpl. by destruct v.
  - intros n Hn Hex. apply Hrun. intros acc. unfold collect_path.
    rewrite Hn. simpl. by rewrite Hex.
Qed.

End Task.

(** ** The sample session, run *)

(** The spec's end-to-end example: a task loaded with [description = 'old']
    and one file; after [description = 'new'] the patch is exactly
    [{'description': 'new'}]. *)
Example sample_patch :
  serialize_as_task
    (after Sample.digest Sample.load (SetDescription "new") Sample.loaded_task)
  = (Ok {[ "description" := VStr "new" ]},
     after Sample.digest Sample.load (SetDescription "new") Sample.loaded_task).
Proof. vm_compute. reflexivity. Qed.

Lemma serialize_as_task_exactly_dirty_witness :
  ∃ data,
    serialize_as_task
      (after Sample.digest Sample.load (SetDescription "new") Sample.loaded_task)
    = (Ok data,
       after Sample.digest Sample.load (SetDescription "new") Sample.loaded_task) ∧
    ∀ k,
      (dirty (after Sample.digest Sample.load (SetDescription "new")
                Sample.loaded_task) k = false → data !! k = None) ∧
      (dirty (after Sample.digest Sample.load (SetDescription "new")
                Sample.loaded_task) k = true →
       ∃ v, obj (after Sample.digest Sample.load (SetDescription "new")
                   Sample.loaded_task) !! k = Some v ∧ data !! k = Some v).
Proof.
  apply (serialize_as_task_exactly_dirty Sample.digest Sample.load).
  apply reachable_call, reachable_init.
Defined.

(** After [meta = '{public: true, title: T}'] the patch holds the six
    sub-keys and no key [meta]. *)
Example sample_meta_patch :
  serialize_as_task
    (after Sample.digest Sample.load (SetMeta Sample.meta_text) Sample.loaded_task)
  = (Ok {[ "public" := VBool true; "importable" := VBool false;
           "distributable" := VBool false; "creatorLogType" := VStr "none";
           "authorLogType" := VStr "none"; "title" := VStr "T" ]},
     after Sample.digest Sample.load (SetMeta Sample.meta_text) Sample.loaded_task).
Proof. vm_compute. reflexivity. Qed.

Lemma serialize_as_task_flattens_meta_witness :
  (∃ data, serialize_as_task Sample.loaded_task = (Ok data, Sample.loaded_task) ∧
           data !! "meta" = None) ∧
  (∃ data,
     serialize_as_task
       (after Sample.digest Sample.load (SetMeta Sample.meta_text)
          Sample.loaded_task)
       = (Ok data,
          after Sample.digest Sample.load (SetMeta Sample.meta_text)
            Sample.loaded_task) ∧
     data !! "meta" = None ∧
     data !! "public" = Some (VBool true) ∧
     data !! "importable" = Some (VBool false) ∧
     data !! "distributable" = Some (VBool false) ∧
     data !! "creatorLogType" = Some (VStr "none") ∧
     data !! "authorLogType" = Some (VStr "none") ∧
     data !! "title" = Some (VStr "T")).
Proof.
  destruct (serialize_as_task_flattens_meta Sample.digest Sample.load
              Sample.loaded_task (reachable_init _ _ _ _)) as [Hnow Hset].
  split; [exact Hnow|].
  destruct (Hset Sample.meta_text
              {[ "public" := VBool true; "title" := VStr "T" ]} eq_refl)
    as (data & Hrun & Hmeta & Hall).
  exists data. split; [exact Hrun|]. split; [exact Hmeta|].
  apply Forall_cons in Hall as [H1 Hall]. apply Forall_cons in Hall as [H2 Hall].
  apply Forall_cons in Hall as [H3 Hall]. apply Forall_cons in Hall as [H4 Hall].
  apply Forall_cons in Hall as [H5 Hall]. apply Forall_cons in Hall as [H6 _].
  split; [exact H1|]. split; [exact H2|]. split; [exact H3|].
  split; [exact H4|]. split; [exact H5|exact H6].
Defined.

Lemma meta_getter_and_setter_witness :
  (∃ o, meta Sample.dump Sample.loaded_task
          = (Ok (Sample.dump (VDict o)), Sample.loaded_task) ∧
        o !! "public" = Some (VBool false) ∧
        o !! "creatorLogType" = Some (VStr "none") ∧
        o !! "title" = Some (VStr "") ∧
        o !! "description" = None) ∧
  (∃ t', meta_setter Sample.load Sample.meta_text Sample.loaded_task = (Ok tt, t') ∧
     (obj t' !! "public" = Some (VBool true) ∧ dirty t' "public" = true) ∧
     (obj t' !! "importable" = Some (VBool false) ∧ dirty t' "importable" = true) ∧
     (obj t' !! "authorLogType" = Some (VStr "none") ∧
      dirty t' "authorLogType" = true) ∧
     (obj t' !! "title" = Some (VStr "T") ∧ dirty t' "title" = true) ∧
     obj t' !! "description" = Some (VStr "old") ∧
     changed t' !! "description" = None).
Proof.
  destruct (meta_getter_and_setter Sample.load Sample.dump Sample.loaded_task)
    as [(o & Hget & Hall & Hrest) Hset].
  split.
  - exists o. split; [exact Hget|].
    apply Forall_cons in Hall as [H1 Hall]. apply Forall_cons in Hall as [_ Hall].
    apply Forall_cons in Hall as [_ Hall]. apply Forall_cons in Hall as [H4 Hall].
    apply Forall_cons in Hall as [_ Hall]. apply Forall_cons in Hall as [H6 _].
    split; [exact H1|]. split; [exact H4|]. split; [exact H6|].
    apply Hrest. apply (bool_decide_unpack _). vm_compute. exact I.
  - destruct (Hset Sample.meta_text
                {[ "public" := VBool true; "title" := VStr "T" ]} eq_refl)
      as (t' & Hrun & Hall' & Hrest').
    exists t'. split; [exact Hrun|].
    apply Forall_cons in Hall' as [H1 Hall']. apply Forall_cons in Hall' as [H2 Hall'].
    apply Forall_cons in Hall' as [_ Hall']. apply Forall_cons in Hall' as [_ Hall'].
    apply Forall_cons in Hall' as [H5 Hall']. apply Forall_cons in Hall' as [H6 _].
    split; [exact H1|]. split; [exact H2|]. split; [exact H5|]. split; [exact H6|].
    apply (Hrest' "description"). apply (bool_decide_unpack _). vm_compute. exact I.
Defined.



Lemma files_setter_missing_file_witness :
  files_setter Sample.digest Sample.load Sample.fs
    (Sample.files_missing, Sample.files_path) Sample.loaded_task
  = (Raise IndexError, Sample.loaded_task) ∧
  is_LookupError IndexError = true.
Proof.
  apply (files_setter_missing_file Sample.digest Sample.load Sample.fs
           Sample.files_missing Sample.files_path Sample.loaded_task
           (VList [VDict (Sample.descriptor "y.txt" 1)])
           [] (VDict (Sample.descriptor "y.txt" 1)) [] ([], []) "y.txt").
  - reflexivity.
  - reflexivity.
  - reflexivity.
  - reflexivity.
  - reflexivity.
  - intros dir f Hin. apply list_elem_of_singleton in Hin.
    injection Hin as _ ->. discriminate.
Defined.

Example stale_entry_not_held :
  ¬ holds (VDict World.stale_entry) "x.txt" "hello".
Proof.
  intros (a & Ha & _ & Hh).
  assert (a = <["hashSHA256" := VStr "world"]> Sample.old_attributes) as ->.
  { assert (attributes (VDict World.stale_entry)
            = Ok (VDict (<["hashSHA256" := VStr "world"]> Sample.old_attributes)))
      as Ha' by reflexivity.
    congruence. }
  vm_compute in Hh. discriminate.
Qed.

Example other_entry_not_held :
  ¬ holds (VDict World.other_entry) "x.txt" "hello".
Proof.
  intros (a & Ha & Hn & _).
  assert (a = <["name" := VStr "z.txt"]> Sample.old_attributes) as ->.
  { assert (attributes (VDict World.other_entry)
            = Ok (VDict (<["name" := VStr "z.txt"]> Sample.old_attributes)))
      as Ha' by reflexivity.
    congruence. }
  vm_compute in Hn. discriminate.
Qed.

Example old_entry_held : holds (VDict Sample.old_entry) "x.txt" "hello".
Proof. exists Sample.old_attributes. repeat split; reflexivity. Qed.

(** The fileset of [crowded_task] holds [x.txt] with other bytes, [z.txt]
    with the bytes of the file, and two entries with both: the first of
    these, with its links, is the one reused. *)
Lemma files_setter_reuses_entry_witness :
  obj World.crowded_reconciled_task !! "files"
    = Some (VList [reused Sample.old_entry Sample.old_data Sample.old_attributes
                     (Sample.descriptor "x.txt" 1)]) ∧
  obj World.crowded_reconciled_task !! "files_data" = Some (VList []) ∧
  Py.getitem (reused Sample.old_entry Sample.old_data Sample.old_attributes
                (Sample.descriptor "x.txt" 1)) "links"
    = Py.getitem (VDict Sample.old_entry) "links" ∧
  fileset_attribute World.crowded_reconciled_task 0 "priority" = Some (VInt 1) ∧
  fileset_attribute World.crowded_reconciled_task 0 "size" = Some (VInt 5).
Proof.
  destruct (files_setter_reuses_entry Sample.digest Sample.load Sample.fs
              Sample.files_one Sample.files_path World.crowded_task
              World.crowded_reconciled_task
              (VList [VDict (Sample.descriptor "x.txt" 1)])
              [] (VDict (Sample.descriptor "x.txt" 1)) []
              (Sample.descriptor "x.txt" 1) "x.txt" "files/x.txt" Sample.x_txt
              [VDict World.stale_entry; VDict World.other_entry]
              (VDict Sample.old_entry) [VDict World.twin_entry])
    as (od & dd & a & nf0 & nd0 & nf1 & nd1 & Hold & Hd & Ha & Hpre & Hpost & _
        & Hfiles & Hdata & Hlinks & _).
  - vm_compute. reflexivity.
  - reflexivity.
  - reflexivity.
  - repeat split; vm_compute; reflexivity.
  - reflexivity.
  - constructor; [exact stale_entry_not_held|].
    constructor; [exact other_entry_not_held|constructor].
  - exact old_entry_held.
  - injection Hold as <-. injection Hpre as <- <-. injection Hpost as <- <-.
    assert (Sample.old_entry !! "data" = Some (VDict Sample.old_data)) as Hd'
      by reflexivity.
    assert (dd = Sample.old_data) as -> by congruence.
    assert (Sample.old_data !! "attributes" = Some (VDict Sample.old_attributes))
      as Ha' by reflexivity.
    assert (a = Sample.old_attributes) as -> by congruence.
    split; [exact Hfiles|]. split; [exact Hdata|].
    split; [apply Hlinks; discriminate|].
    split; vm_compute; reflexivity.
Defined.

(** The fileset of [unmatched_task] holds [x.txt] with other bytes and
    [z.txt] with the bytes of the file: neither is reused. *)
Lemma files_setter_mints_entry_witness :
  obj World.unmatched_uploaded_task !! "files"
    = Some (VList [fresh_entry "hello" Sample.x_txt (Sample.descriptor "x.txt" 1)]) ∧
  obj World.unmatched_uploaded_task !! "files_data"
    = Some (VList [transfer "x.txt" "hello" "files/x.txt"]) ∧
  Py.contains "links"
    (fresh_entry "hello" Sample.x_txt (Sample.descriptor "x.txt" 1)) = Ok false ∧
  fileset_attribute World.unmatched_uploaded_task 0 "hashSHA256"
    = Some (VStr "hello") ∧
  fileset_attribute World.unmatched_uploaded_task 0 "size" = Some (VInt 5) ∧
  fileset_attribute World.unmatched_uploaded_task 0 "lastModified"
    = Some (VInt 1700000000000).
Proof.
  destruct (files_setter_mints_entry Sample.digest Sample.load Sample.fs
              Sample.files_one Sample.files_path World.unmatched_task
              World.unmatched_uploaded_task
              (VList [VDict (Sample.descriptor "x.txt" 1)])
              [] (VDict (Sample.descriptor "x.txt" 1)) []
              (Sample.descriptor "x.txt" 1) "x.txt" "files/x.txt" Sample.x_txt
              [VDict World.stale_entry; VDict World.other_entry])
    as (nf0 & nd0 & nf1 & nd1 & Hpre & Hpost & _ & Hfiles & Hdata & Hlinks & _).
  - vm_compute. reflexivity.
  - reflexivity.
  - reflexivity.
  - repeat split; vm_compute; reflexivity.
  - reflexivity.
  - constructor; [exact stale_entry_not_held|].
    constructor; [exact other_entry_not_held|constructor].
  - injection Hpre as <- <-. injection Hpost as <- <-.
    split; [exact Hfiles|]. split; [exact Hdata|]. split; [exact Hlinks|].
    repeat split; vm_compute; reflexivity.
Defined.

Lemma files_setter_twice_no_transfers_witness :
  ∃ t2,
    files_setter Sample.digest Sample.load Sample.fs
      (Sample.files_one, Sample.files_path) Sample.uploaded_task = (Ok tt, t2) ∧
    obj t2 !! "files_data" = Some (VList []) ∧
    get_data_files t2 = (Ok (VList []), t2).
Proof.
  apply (files_setter_twice_no_transfers Sample.digest Sample.load Sample.fs
           Sample.files_one Sample.files_path Sample.empty_task Sample.uploaded_task
           (VList [VDict (Sample.descriptor "x.txt" 1)])
           [VDict (Sample.descriptor "x.txt" 1)]).
  - vm_compute. reflexivity.
  - reflexivity.
  - reflexivity.
  - repeat constructor.
Defined.

Lemma get_data_files_keeps_transfers_witness :
  ∃ loaded descriptors nf nd,
    Sample.load Sample.files_one = Ok loaded ∧ Py.iter loaded = Ok descriptors ∧
    for_each
      (files_loop Sample.digest Sample.fs
         (default (VList []) (obj Sample.empty_task !! "files")) Sample.files_path)
      descriptors ([], []) = Ok (nf, nd) ∧
    get_data_files Sample.uploaded_task = (Ok (VList nd), Sample.uploaded_task) ∧
    (x ← get_data_files; y ← get_data_files; mret (x, y)) Sample.uploaded_task
      = (Ok (VList nd, VList nd), Sample.uploaded_task).
Proof.
  apply (get_data_files_keeps_transfers Sample.digest Sample.load Sample.fs
           Sample.files_one Sample.files_path Sample.empty_task Sample.uploaded_task).
  vm_compute. reflexivity.
Defined.

Lemma files_setter_keeps_duplicates_witness :
  ∃ t' nf,
    files_setter Sample.digest Sample.load Sample.fs
      (Sample.files_twice, Sample.files_path) Sample.loaded_task = (Ok tt, t') ∧
    obj t' !! "files" = Some (VList nf) ∧
    length nf = 2 ∧
    ∃ ei ej ai aj,
      nf !! 0 = Some ei ∧ nf !! 1 = Some ej ∧
      attributes ei = Ok (VDict ai) ∧ attributes ej = Ok (VDict aj) ∧
      ai !! "name" = Some (VStr "x.txt") ∧ aj !! "name" = Some (VStr "x.txt").
Proof.
  destruct (files_setter_keeps_duplicates Sample.digest Sample.load Sample.fs
              Sample.files_twice Sample.files_path Sample.loaded_task
              (VList [VDict (Sample.descriptor "x.txt" 1);
                      VDict (Sample.descriptor "x.txt" 2)])
              [VDict (Sample.descriptor "x.txt" 1);
               VDict (Sample.descriptor "x.txt" 2)])
    as (t' & nf & Hset & Hfiles & Hlen & Hdup).
  - reflexivity.
  - reflexivity.
  - repeat constructor; eexists; vm_compute; reflexivity.
  - exists t', nf. split; [exact Hset|]. split; [exact Hfiles|].
    split; [exact Hlen|].
    apply (Hdup 0 1 (VDict (Sample.descriptor "x.txt" 1))
                    (VDict (Sample.descriptor "x.txt" 2)) (VStr "x.txt"));
      [discriminate|reflexivity|reflexivity|reflexivity|reflexivity].
Defined.

(** ** Where the code departs from the specification *)

(** C1, as stated, fails: the old entry has the name and the digest of the
    descriptor's file, and the descriptor's key [size] replaces the size of
    the reused entry (5 becomes 0). *)
Lemma files_setter_reuses_entry_counterexample :
  files_setter Sample.digest Sample.load Sample.fs
    (Sample.files_sized, Sample.files_path) Sample.loaded_task
    = (Ok tt, Sample.sized_loaded_task) ∧
  old_matches (VStr "x.txt") (Sample.digest (f_bytes Sample.x_txt))
    (VDict Sample.old_entry) = Ok true ∧
  fileset_attribute Sample.loaded_task 0 "size" = Some (VInt 5) ∧
  fileset_attribute Sample.sized_loaded_task 0 "size" = Some (VInt 0) ∧
  obj Sample.sized_loaded_task !! "files_data" = Some (VList []).
Proof. repeat split; vm_compute; reflexivity. Qed.

(** C2, as stated, fails: no old entry exists, the file has 5 bytes and the
    digest [hello], and the new entry carries the descriptor's [size] 0, or
    the descriptor's [hashSHA256], instead of the computed values. *)
Lemma files_setter_mints_entry_counterexample :
  files_setter Sample.digest Sample.load Sample.fs
    (Sample.files_sized, Sample.files_path) Sample.empty_task
    = (Ok tt, Sample.sized_empty_task) ∧
  f_size Sample.x_txt = 5%Z ∧
  fileset_attribute Sample.sized_empty_task 0 "size" = Some (VInt 0) ∧
  files_setter Sample.digest Sample.load Sample.fs
    (Sample.files_hashed, Sample.files_path) Sample.empty_task
    = (Ok tt, Sample.hashed_task) ∧
  Sample.digest (f_bytes Sample.x_txt) = "hello" ∧
  fileset_attribute Sample.hashed_task 0 "hashSHA256"
    = Some (VStr "bogus").
Proof. repeat split; vm_compute; reflexivity. Qed.

(** C3, as stated, fails: with a descriptor that carries a [hashSHA256] other
    than the digest of its file, the second reconciliation against the
    output of the first, on the same file, asks for the transfer again. *)
Lemma files_setter_twice_counterexample :
  files_setter Sample.digest Sample.load Sample.fs
    (Sample.files_hashed, Sample.files_path) Sample.empty_task
    = (Ok tt, Sample.hashed_task) ∧
  files_setter Sample.digest Sample.load Sample.fs
    (Sample.files_hashed, Sample.files_path) Sample.hashed_task
    = (Ok tt, Sample.hashed_again_task) ∧
  get_data_files Sample.hashed_again_task
    = (Ok (VList [transfer "x.txt" "hello" "files/x.txt"]),
       Sample.hashed_again_task).
Proof. repeat split; vm_compute; reflexivity. Qed.

(** C5, as stated, fails: after a [files] assignment that found a new file,
    the second call of [get_data_files] returns the transfer again, not the
    empty list. *)
Lemma get_data_files_counterexample :
  files_setter Sample.digest Sample.load Sample.fs
    (Sample.files_one, Sample.files_path) Sample.empty_task
    = (Ok tt, Sample.uploaded_task) ∧
  (get_data_files;; get_data_files) Sample.uploaded_task
    = (Ok (VList [transfer "x.txt" "hello" "files/x.txt"]), Sample.uploaded_task).
Proof. repeat split; vm_compute; reflexivity. Qed.

(** C6, as stated, fails: two descriptors named [x.txt], backed by a local
    file, are accepted, and the fileset holds two entries named [x.txt]. *)
Lemma files_setter_duplicates_counterexample :
  files_setter Sample.digest Sample.load Sample.fs
    (Sample.files_twice, Sample.files_path) Sample.loaded_task
    = (Ok tt, Sample.twice_task) ∧
  fileset_attribute Sample.twice_task 0 "name" = Some (VStr "x.txt") ∧
  fileset_attribute Sample.twice_task 1 "name" = Some (VStr "x.txt").
Proof. repeat split; vm_compute; reflexivity. Qed.


(** ** The sample session, continued *)

Lemma run_call_raise_unchanged_witness :
  run_call Sample.digest Sample.load (SetParamschema Sample.schema_object)
    Sample.empty_task
    = (Raise (ValueError "unexpected type"), Sample.empty_task) ∧
  Sample.empty_task = Sample.empty_task.
Proof.
  assert (H : run_call Sample.digest Sample.load
                (SetParamschema Sample.schema_object) Sample.empty_task
              = (Raise (ValueError "unexpected type"), Sample.empty_task))
    by (vm_compute; reflexivity).
  split; [exact H|].
  exact (run_call_raise_unchanged Sample.digest Sample.load _ _ _ _ H).
Defined.

Lemma session_frame_witness :
  obj (session Sample.digest Sample.load
         [SetDescription "new"; SetParam Sample.schema_string]
         Sample.loaded_task) !! "files"
    = obj Sample.loaded_task !! "files" ∧
  changed (session Sample.digest Sample.load
             [SetDescription "new"; SetParam Sample.schema_string]
             Sample.loaded_task) !! "files"
    = changed Sample.loaded_task !! "files".
Proof.
  apply (session_frame Sample.digest Sample.load).
  repeat constructor; apply (bool_decide_unpack _); vm_compute; exact I.
Defined.

Lemma session_dirty_witness :
  dirty (session Sample.digest Sample.load
           [SetScript "s"; SetParamschema Sample.schema_object]
           (after Sample.digest Sample.load (SetDescription "new")
              Sample.empty_task)) "description" = true.
Proof.
  apply (session_dirty Sample.digest Sample.load). reflexivity.
Defined.

Lemma param_round_trip_witness :
  ∃ text,
    param World.dump World.param_task = (Ok text, World.param_task) ∧
    param_setter World.load text World.param_task
      = (Ok tt, mkTask (obj World.param_task)
                  (<["param" := true]> (changed World.param_task))
                  (dir_files World.param_task)).
Proof.
  apply (proj1 (param_round_trip World.load World.dump World.param_task)
           World.param_value); reflexivity.
Defined.

Lemma setters_on_empty_document_witness :
  World.load "" = Ok VNone ∧
  meta_setter World.load "" Sample.loaded_task
    = (Raise AttributeError, Sample.loaded_task) ∧
  files_setter Sample.digest World.load Sample.fs ("", Sample.files_path)
    Sample.loaded_task
    = (Raise TypeError, Sample.loaded_task).
Proof.
  split; [reflexivity|].
  destruct (setters_on_empty_document Sample.digest World.load Sample.fs ""
              Sample.files_path Sample.loaded_task eq_refl)
    as (Hmeta & Hfiles & _).
  split; [exact Hmeta|exact Hfiles].
Defined.




Lemma _patch_uploads_acknowledged_witness :
  _patch_uploads Sample.fs World.http_put World.crowded_respjson
    (VList [transfer "x.txt" "hello" "files/x.txt"])
    = (Ok tt, [(VStr "https://goemon.cloud/u/1", list_byte_of_string "hello")]).
Proof.
  apply (_patch_uploads_acknowledged Sample.fs World.http_put
           World.crowded_respjson
           [VDict World.stale_entry; VDict World.other_entry;
            VDict Sample.old_entry; VDict World.twin_entry]).
  - reflexivity.
  - repeat constructor;
      (eexists; split; [reflexivity|]; split; by eexists).
  - constructor; [|constructor].
    exists "x.txt", "hello", "files/x.txt", Sample.x_txt,
      [VDict World.stale_entry; VDict World.other_entry],
      (VDict Sample.old_entry), [VDict World.twin_entry].
    split; [reflexivity|]. split; [reflexivity|].
    split.
    { constructor; [exact stale_entry_not_held|].
      constructor; [exact other_entry_not_held|constructor]. }
    split; [exact old_entry_held|].
    split; [reflexivity|]. split; [reflexivity|]. split; reflexivity.
Defined.

Lemma _patch_uploads_unacknowledged_witness :
  _patch_uploads Sample.fs World.http_put World.respjson
    (VList [transfer "y.txt" "hello" "files/y.txt"])
    = (Raise OSError, []).
Proof.
  apply (_patch_uploads_unacknowledged Sample.fs World.http_put World.respjson
           [] [] "y.txt" "hello" "files/y.txt" []).
  - constructor.
  - exists [VDict Sample.old_entry]. split; [reflexivity|].
    constructor; [vm_compute; reflexivity|constructor].
Defined.

Lemma files_setter_transfers_backed_witness :
  ∃ nf nd,
    obj Sample.uploaded_task !! "files" = Some (VList nf) ∧
    get_data_files Sample.uploaded_task = (Ok (VList nd), Sample.uploaded_task) ∧
    Forall (λ tr, ∃ e, e ∈ nf ∧ backed Sample.digest Sample.fs e tr) nd.
Proof.
  apply (files_setter_transfers_backed Sample.digest Sample.load Sample.fs
           Sample.files_one Sample.files_path Sample.empty_task
           Sample.uploaded_task
           (VList [VDict (Sample.descriptor "x.txt" 1)])
           [VDict (Sample.descriptor "x.txt" 1)]).
  - vm_compute. reflexivity.
  - reflexivity.
  - reflexivity.
  - constructor; [vm_compute; reflexivity|constructor].
Defined.

Lemma destroy_after_session_witness :
  (destroy World.rmtree
     (session Sample.digest Sample.load [SetDescription "new"]
        Sample.loaded_task, [])).1 = Ok tt ∧
  (destroy World.rmtree
     (session Sample.digest Sample.load [SetDescription "new"]
        Sample.loaded_task, [])).2.2 = ["/tmp/goemon"].
Proof.
  assert (Hne : "/tmp/goemon" ≠ "") by discriminate.
  destruct (destroy_after_session Sample.digest Sample.load World.rmtree
              [SetDescription "new"] (obj Sample.loaded_task) "/tmp/goemon" []
              Hne) as (Hok & _ & _).
  destruct (Hok eq_refl) as [Hrun _].
  change (Task_init (obj Sample.loaded_task) (Some "/tmp/goemon"))
    with Sample.loaded_task in Hrun.
  rewrite Hrun. split; reflexivity.
Defined.

Lemma files_setter_drops_omitted_witness :
  ∃ nf,
    obj Sample.reconciled_task !! "files" = Some (VList nf) ∧
    length nf = 1 ∧
    ∀ e, e ∈ nf →
      ∃ file nm a,
        file ∈ [VDict (Sample.descriptor "x.txt" 1)] ∧
        Py.getitem file "name" = Ok nm ∧
        attributes e = Ok (VDict a) ∧ a !! "name" = Some nm.
Proof.
  apply (files_setter_drops_omitted Sample.digest Sample.load Sample.fs
           Sample.files_one Sample.files_path Sample.loaded_task
           Sample.reconciled_task
           (VList [VDict (Sample.descriptor "x.txt" 1)])
           [VDict (Sample.descriptor "x.txt" 1)]).
  - vm_compute. reflexivity.
  - reflexivity.
  - reflexivity.
Defined.

Lemma process_files_export_no_IndexError_witness :
  process_files_export Sample.digest Sample.load World.read_text World.exists_
    World.report Sample.fs (mkArgs (Some "files") false "." false)
    Sample.empty_task
    = (Raise (ValueError "File not found"), Sample.empty_task) ∧
  ValueError "File not found" ≠ IndexError ∧
  Sample.empty_task = Sample.empty_task.
Proof.
  assert (H : process_files_export Sample.digest Sample.load World.read_text
                World.exists_ World.report Sample.fs
                (mkArgs (Some "files") false "." false) Sample.empty_task
              = (Raise (ValueError "File not found"), Sample.empty_task))
    by (vm_compute; reflexivity).
  split; [exact H|].
  refine (process_files_export_no_IndexError Sample.digest Sample.load
            World.read_text World.exists_ World.report Sample.fs
            (mkArgs (Some "files") false "." false) Sample.empty_task _ _
            _ _ eq_refl H).
  - intros path. unfold no_IndexError, World.read_text.
    destruct (bool_decide _); discriminate.
  - intros text. unfold no_IndexError, Sample.load.
    destruct (list_find _ _) as [[? [? ?]]|]; discriminate.
Defined.

Lemma process_files_export_rejects_witness :
  process_files_export Sample.digest Sample.load World.read_text World.exists_
    World.report Sample.fs (mkArgs (Some "files") false "." true)
    Sample.empty_task
    = (Raise (ValueError "File not found"), Sample.empty_task).
Proof.
  refine (proj2 (proj2
            (process_files_export_rejects Sample.digest Sample.load
               World.read_text World.exists_ World.report Sample.fs
               "." "files" true Sample.files_missing []
               (VDict (Sample.descriptor "y.txt" 1)) [] Sample.empty_task
               eq_refl eq_refl (Forall_nil_2 _)))
            "y.txt" eq_refl eq_refl).
Defined.
